(** * FPClock: the front-panel clock daemon (src/fpclock.c)

    A shallow embedding of fpclock.c.  The C globals and the outside world
    (front-panel clock, system clock, files, kernel answers) are threaded
    through a small state-and-trace monad; every system call the program
    issues is recorded as an event, so that the order and the arguments of
    the calls can be stated and proved. *)

From Stdlib Require Import ZArith Lia SpecFloat.
From stdpp Require Import base tactics option list sorting strings.

Open Scope Z_scope.

(** ** C integers

    [int] is 32 bits wide on every target of the daemon.  Values are kept
    in [Z]; a cast to [int] and every [int] operation wrap around (two's
    complement), which is what the compiled code does on overflow.  A
    [time_t] is kept as it is: the program uses one only through a cast to
    [int] or [unsigned int] or a test against 0, and the casts depend on
    the value modulo 2^32 only. *)

Definition INT_MIN : Z := -2147483648.
Definition INT_MAX : Z := 2147483647.

(** [(int)z] *)
Definition to_int (z : Z) : Z := (z + 2147483648) mod 4294967296 - 2147483648.

(** [(unsigned int)z] *)
Definition to_uint (z : Z) : Z := z mod 4294967296.

Definition int_add (a b : Z) : Z := to_int (a + b).
Definition int_sub (a b : Z) : Z := to_int (a - b).

(** [abs(j)] from stdlib.h; [abs(INT_MIN)] comes back as [INT_MIN]. *)
Definition abs (j : Z) : Z := to_int (Z.abs j).

(** ** C doubles

    IEEE-754 binary64, computed with the specification floats of the
    standard library (precision 53, maximal exponent 1024, rounding to
    nearest even). *)

Definition double : Type := spec_float.

Definition dbl_prec : Z := 53.
Definition dbl_emax : Z := 1024.

(** [(double)z] for an integer [z] *)
Definition double_of_int (z : Z) : double := binary_normalize dbl_prec dbl_emax z 0 false.

Definition dmul (x y : double) : double := SFmul dbl_prec dbl_emax x y.
Definition ddiv (x y : double) : double := SFdiv dbl_prec dbl_emax x y.

(** [x != 0] on doubles: false on both zeros, true on NaN. *)
Definition dnonzero (x : double) : bool :=
  match SFcompare x (S754_zero false) with
  | Some Eq => false
  | _ => true
  end.

(** The integral part of a double (truncation toward zero); [None] for NaN
    and the infinities. *)
Definition dtrunc (x : double) : option Z :=
  match x with
  | S754_zero _ => Some 0
  | S754_finite s m e =>
      let mag := if 0 <=? e then Z.pos m * 2 ^ e else Z.pos m / 2 ^ (- e) in
      Some (if s then - mag else mag)
  | S754_infinity _ | S754_nan => None
  end.

(** What depends on the build and on the processor: the compile-time switch
    [HAVE_NO_RTC], and the value a double-to-int conversion leaves when the
    double has no [int] counterpart (C leaves it open; processors saturate
    or return a fixed pattern). *)
Record Target : Type := mkTarget {
  HAVE_NO_RTC : bool;
  invalid_int_of_double : double -> Z
}.

(** [(int)x] for a double [x] *)
Definition int_of_double (tg : Target) (x : double) : Z :=
  match dtrunc x with
  | Some z => if (INT_MIN <=? z) && (z <=? INT_MAX) then z else invalid_int_of_double tg x
  | None => invalid_int_of_double tg x
  end.

(** ** Files, devices and kernel answers *)

Definition proc_file : string := "/proc/stb/fp/rtc".
Definition dev_file : string := "/dev/dbox/fp0".
Definition drift_file : string := "/etc/fpclock.drift".
Definition APP : string := "FPClock".
Definition app_name : string := "fpclock".
Definition app_ver : string := "1.7".

Definition EINVAL : Z := 22.
Definition EXIT_SUCCESS : Z := 0.
Definition EXIT_FAILURE : Z := 1.

(** One line of the configuration file, as the three tests of
    [read_conf_file] see it. *)
Record ConfLine : Type := mkConfLine {
  is_comment : bool;              (* line[0] == '#' *)
  scan_verbose : option Z;        (* sscanf(line, "verbose=%d", &val) == 1 *)
  scan_timeout : option Z         (* sscanf(line, "timeout=%d", &val) == 1 *)
}.

Inductive ForkResult : Type := ForkFailed | ForkParent | ForkChild.

(** The world outside the process. *)
Record World : Type := mkWorld {
  target : Target;
  rtc : Z;                        (* the front-panel clock register *)
  proc_present : bool;            (* fopen(proc_file, ...) succeeds *)
  proc_scan_ok : bool;            (* fscanf(f, "%u", &tmp) == 1 *)
  dev_present : bool;             (* open(dev_file, O_RDWR) >= 0 *)
  ioctl_get_ok : bool;            (* ioctl(fd, FP_IOCTL_GET_RTC, ..) >= 0 *)
  ioctl_set_ok : bool;            (* ioctl(fd, FP_IOCTL_SET_RTC, ..) >= 0 *)
  sys_clock : Z;                  (* time(0) *)
  slew : Z;                       (* adjustment accepted by adjtime, still to be applied *)
  adjtime_errno : Z -> option Z;  (* None: adjtime returns 0; Some e: -1 with errno e *)
  drift_scan : option (option (Z * double));
                                  (* None: fopen(drift_file, "r") fails;
                                     Some None: fscanf "%d:%lf" does not give 2;
                                     Some (Some (lastsave, drift)) otherwise *)
  drift_writable : bool;          (* fopen(drift_file, "w") succeeds *)
  conf_lines : option (list ConfLine);  (* None: fopen(conf_file_name, "r") fails *)
  log_file_ok : bool;             (* fopen(log_file_name, "a+") succeeds *)
  fork1 : ForkResult;
  setsid_ok : bool;
  fork2 : ForkResult;
  lock_open : Z;                  (* what open(pid_file_name, ...) returns *)
  lock_ok : bool                  (* lockf(pid_fd, F_TLOCK, 0) >= 0 *)
}.

Definition set_rtc (v : Z) (w : World) : World :=
  mkWorld (target w) v (proc_present w) (proc_scan_ok w) (dev_present w)
    (ioctl_get_ok w) (ioctl_set_ok w) (sys_clock w) (slew w) (adjtime_errno w)
    (drift_scan w) (drift_writable w) (conf_lines w) (log_file_ok w)
    (fork1 w) (setsid_ok w) (fork2 w) (lock_open w) (lock_ok w).

Definition set_sys_clock (v : Z) (w : World) : World :=
  mkWorld (target w) (rtc w) (proc_present w) (proc_scan_ok w) (dev_present w)
    (ioctl_get_ok w) (ioctl_set_ok w) v (slew w) (adjtime_errno w)
    (drift_scan w) (drift_writable w) (conf_lines w) (log_file_ok w)
    (fork1 w) (setsid_ok w) (fork2 w) (lock_open w) (lock_ok w).

Definition set_slew (v : Z) (w : World) : World :=
  mkWorld (target w) (rtc w) (proc_present w) (proc_scan_ok w) (dev_present w)
    (ioctl_get_ok w) (ioctl_set_ok w) (sys_clock w) v (adjtime_errno w)
    (drift_scan w) (drift_writable w) (conf_lines w) (log_file_ok w)
    (fork1 w) (setsid_ok w) (fork2 w) (lock_open w) (lock_ok w).

(** ** The globals of fpclock.c *)

Inductive LogStream : Type := LogStdout | LogFile (name : string).

Record Globals : Type := mkGlobals {
  verbose : Z;
  forcedate : Z;
  running : Z;
  delay : Z;
  conf_file_name : option string;
  pid_file_name : option string;
  log_file_name : option string;
  pid_fd : Z;
  log_stream : LogStream;
  drift_data : list Z;            (* int drift_data[10] *)
  drift_index : Z
}.

Definition set_verbose (v : Z) (g : Globals) : Globals :=
  mkGlobals v (forcedate g) (running g) (delay g) (conf_file_name g) (pid_file_name g)
    (log_file_name g) (pid_fd g) (log_stream g) (drift_data g) (drift_index g).

Definition set_forcedate (v : Z) (g : Globals) : Globals :=
  mkGlobals (verbose g) v (running g) (delay g) (conf_file_name g) (pid_file_name g)
    (log_file_name g) (pid_fd g) (log_stream g) (drift_data g) (drift_index g).

Definition set_running (v : Z) (g : Globals) : Globals :=
  mkGlobals (verbose g) (forcedate g) v (delay g) (conf_file_name g) (pid_file_name g)
    (log_file_name g) (pid_fd g) (log_stream g) (drift_data g) (drift_index g).

Definition set_delay (v : Z) (g : Globals) : Globals :=
  mkGlobals (verbose g) (forcedate g) (running g) v (conf_file_name g) (pid_file_name g)
    (log_file_name g) (pid_fd g) (log_stream g) (drift_data g) (drift_index g).

Definition set_pid_file_name (v : option string) (g : Globals) : Globals :=
  mkGlobals (verbose g) (forcedate g) (running g) (delay g) (conf_file_name g) v
    (log_file_name g) (pid_fd g) (log_stream g) (drift_data g) (drift_index g).

Definition set_conf_file_name (v : option string) (g : Globals) : Globals :=
  mkGlobals (verbose g) (forcedate g) (running g) (delay g) v (pid_file_name g)
    (log_file_name g) (pid_fd g) (log_stream g) (drift_data g) (drift_index g).

Definition set_log_file_name (v : option string) (g : Globals) : Globals :=
  mkGlobals (verbose g) (forcedate g) (running g) (delay g) (conf_file_name g) (pid_file_name g)
    v (pid_fd g) (log_stream g) (drift_data g) (drift_index g).

Definition set_pid_fd (v : Z) (g : Globals) : Globals :=
  mkGlobals (verbose g) (forcedate g) (running g) (delay g) (conf_file_name g) (pid_file_name g)
    (log_file_name g) v (log_stream g) (drift_data g) (drift_index g).

Definition set_log_stream (v : LogStream) (g : Globals) : Globals :=
  mkGlobals (verbose g) (forcedate g) (running g) (delay g) (conf_file_name g) (pid_file_name g)
    (log_file_name g) (pid_fd g) v (drift_data g) (drift_index g).

Definition set_drift_data (v : list Z) (g : Globals) : Globals :=
  mkGlobals (verbose g) (forcedate g) (running g) (delay g) (conf_file_name g) (pid_file_name g)
    (log_file_name g) (pid_fd g) (log_stream g) v (drift_index g).

Definition set_drift_index (v : Z) (g : Globals) : Globals :=
  mkGlobals (verbose g) (forcedate g) (running g) (delay g) (conf_file_name g) (pid_file_name g)
    (log_file_name g) (pid_fd g) (log_stream g) (drift_data g) v.

(** The static initialisers at the top of the file ([drift_data] is a
    zero-initialised static array). *)
Definition initial_globals : Globals :=
  mkGlobals 0 (-1) 0 1800 None None None (-1) LogStdout (replicate 10 0) 0.

(** ** Events: what the process asks of the outside *)

Inductive LogArg : Type :=
| AInt (z : Z)                    (* %d, %u, %ld *)
| ADouble (d : double)            (* %f, %lf *)
| AStr (s : string)               (* %s *)
| ACtime (t : Z).                 (* %s of ctime(&t) *)

Inductive Event : Type :=
| EvLog (print : Z) (fmt : string) (args : list LogArg)   (* LOG(print, fmt, ...) *)
| EvPrint (text : string)                                  (* printf *)
| EvSyslog (fmt : string) (args : list LogArg)
| EvProcRead                      (* fopen(proc_file, "r") succeeded, fscanf follows *)
| EvProcWrite (v : Z)             (* fprintf(fd, "%u", v) on proc_file *)
| EvIoctlGet                      (* ioctl(fd, FP_IOCTL_GET_RTC, ..) *)
| EvIoctlSet (v : Z)              (* ioctl(fd, FP_IOCTL_SET_RTC, &v) *)
| EvAdjtime (delta : Z)           (* adjtime with tv_sec = delta *)
| EvSettimeofday (sec : Z)        (* settimeofday with tv_sec = sec *)
| EvDriftOpen                     (* fopen(drift_file, "r") *)
| EvDriftWrite (t : Z) (d : double)   (* fprintf(fd, "%ld:%lf", t, d) on drift_file *)
| EvUnlock (fd : Z)               (* lockf(fd, F_ULOCK, 0); close(fd) *)
| EvUnlink (name : string)
| EvPidWrite (fd : Z)             (* the pid written to the lock file *)
| EvSleep (seconds : Z).

(** ** The monad: state passing with a trace of events *)

Record State : Type := mkState { globals : Globals; world : World }.

Record Outcome (A : Type) : Type := mkOutcome {
  value : A;
  after : State;
  events : list Event
}.
Arguments mkOutcome {A} _ _ _.
Arguments value {A} _.
Arguments after {A} _.
Arguments events {A} _.

Definition M (A : Type) : Type := State -> Outcome A.

Definition ret {A} (a : A) : M A := fun st => mkOutcome a st [].

Definition bind {A B} (m : M A) (k : A -> M B) : M B :=
  fun st =>
    let r1 := m st in
    let r2 := k (value r1) (after r1) in
    mkOutcome (value r2) (after r2) (events r1 ++ events r2).

Notation "'do' x <- m ; k" := (bind m (fun x => k))
  (at level 10, x name, m at level 100, k at level 200).
Notation "m ;; k" := (bind m (fun _ => k))
  (at level 100, k at level 200, right associativity).

Definition get_globals : M Globals := fun st => mkOutcome (globals st) st [].
Definition get_world : M World := fun st => mkOutcome (world st) st [].
Definition upd_globals (f : Globals -> Globals) : M unit :=
  fun st => mkOutcome tt (mkState (f (globals st)) (world st)) [].
Definition upd_world (f : World -> World) : M unit :=
  fun st => mkOutcome tt (mkState (globals st) (f (world st))) [].
Definition emit (e : Event) : M unit := fun st => mkOutcome tt st [e].

(** [if (c) body] *)
Definition when (c : bool) (body : M unit) : M unit := if c then body else ret tt.

(** C truth of an integer *)
Definition truthy (z : Z) : bool := negb (z =? 0).

(** ** LOG *)

(** The timestamp [LOG] puts in front of a log-file line is left out of the
    event; [print] tells the console from the log stream. *)
Definition LOG (print : Z) (fmt : string) (args : list LogArg) : M unit :=
  emit (EvLog print fmt args).

(** ** Drift functions *)

(** add_drift, lines 108-117.  A store outside the array (which the index
    never reaches) is left without effect. *)
Definition add_drift (drift : Z) : M unit :=
  when (negb (drift =? 0))
    (do g <- get_globals;
     upd_globals (set_drift_data (<[Z.to_nat (drift_index g) := drift]> (drift_data g)));;
     upd_globals (set_drift_index (int_add (drift_index g) 1));;
     do g' <- get_globals;
     when (drift_index g' >? 9) (upd_globals (set_drift_index 0))).

(** cmpfunc, line 123: the difference of the two ints, as an int. *)
Definition cmpfunc (a b : Z) : Z := int_sub a b.

(** qsort of the C library, driven by the comparison function it is given.
    The library is free in its choice of algorithm; an insertion sort stands
    for it here.  Whenever the comparison function is a total order on the
    elements, every algorithm returns the same array. *)
Fixpoint qsort_insert (compar : Z -> Z -> Z) (x : Z) (l : list Z) : list Z :=
  match l with
  | [] => [x]
  | y :: l' => if compar x y <=? 0 then x :: y :: l' else y :: qsort_insert compar x l'
  end.

Definition qsort (base : list Z) (compar : Z -> Z -> Z) : list Z :=
  foldr (qsort_insert compar) [] base.

(** [a[i]] for an index within the array *)
Definition elt (a : list Z) (i : nat) : Z := default 0 (a !! i).

(** calc_drift, lines 128-133.  The array itself is sorted. *)
Definition calc_drift : M double :=
  do g <- get_globals;
  upd_globals (set_drift_data (qsort (drift_data g) cmpfunc));;
  do g <- get_globals;
  let median := ddiv (double_of_int (int_add (elt (drift_data g) (Z.to_nat (9 / 2))) (elt (drift_data g) 5)))
                     (double_of_int 2) in
  ret (ddiv median (double_of_int (delay g))).

(** get_drift_seconds, lines 138-168.  The parameter is an [int]: the
    caller's [time_t] is converted on the way in. *)
Definition get_drift_seconds (rtctime : Z) : M Z :=
  do w <- get_world;
  emit EvDriftOpen;;
  match drift_scan w with
  | Some scanned =>
      do rec <- match scanned with
                | Some (lastsave, drift) => ret (lastsave, drift)
                | None =>
                    LOG 0 "Read %s failed: %m" [AStr drift_file];;
                    ret (0, double_of_int 0)
                end;
      let lastsave := fst rec in
      let drift := snd rec in
      if dnonzero drift && negb (lastsave =? 0) then
        let driftseconds :=
          int_of_double (target w) (dmul (double_of_int (int_sub rtctime lastsave)) drift) in
        do g <- get_globals;
        when (truthy (verbose g))
          (LOG 0 "FP RC drift:%f lastsave:%d offline seconds:%d drift seconds:%d"
             [ADouble drift; AInt lastsave; AInt (int_sub rtctime lastsave); AInt driftseconds]);;
        ret driftseconds
      else ret 0
  | None =>
      LOG 0 "File %s not exists" [AStr drift_file];;
      ret 0
  end.

(** ** The hardware clock accessor *)

(** getRTC, lines 173-213.  The result is a [time_t]; a failed ioctl leaves
    [rtc_time] at its initial 0. *)
Definition getRTC : M Z :=
  do w <- get_world;
  do g <- get_globals;
  if proc_present w then
    emit EvProcRead;;
    if proc_scan_ok w then
      ret (if HAVE_NO_RTC (target w) then 0 else to_uint (rtc w))
    else
      LOG 0 "Read %s failed: %m" [AStr proc_file];;
      ret 0
  else
    when (truthy (verbose g)) (LOG 0 "%s not exists" [AStr proc_file]);;
    if dev_present w then
      emit EvIoctlGet;;
      if ioctl_get_ok w then ret (rtc w)
      else
        LOG 0 "FP_IOCTL_GET_RTC failed: %m" [];;
        ret 0
    else
      when (truthy (verbose g)) (LOG 0 "%s not exists" [AStr dev_file]);;
      ret 0.

(** setRTC, lines 219-260.  [fprintf] never returns 0 for the format "%u",
    so the message guarded by [!fprintf(...)] is never logged. *)
Definition setRTC (time : Z) (saveDrift : Z) (logMode : Z) : M unit :=
  do g <- get_globals;
  when (truthy (verbose g)) (LOG logMode "Set FP RTC time to %s" [ACtime time]);;
  when (truthy saveDrift)
    (do old <- getRTC;
     let drift := int_sub (to_int old) (to_int time) in
     when (negb (drift =? 0))
       (add_drift drift;;
        do g' <- get_globals;
        when (truthy (verbose g'))
          (LOG logMode "FP RTC time drift value:%d / data:%d %d %d %d %d %d %d %d %d %d"
             (AInt drift :: map AInt (take 10 (drift_data g'))))));;
  do w <- get_world;
  if proc_present w then
    emit (EvProcWrite (to_uint time));;
    upd_world (set_rtc (to_uint time))
  else
    when (dev_present w)
      (emit (EvIoctlSet time);;
       if ioctl_set_ok w then upd_world (set_rtc time)
       else LOG logMode "FP_IOCTL_SET_RTC failed: %m" []).

(** ** Configuration, signals, daemon bootstrap *)

(** The body of the [getline] loop of read_conf_file, lines 286-300. *)
Fixpoint read_conf_lines (lines : list ConfLine) (ret_ : Z) : M Z :=
  match lines with
  | [] => ret ret_
  | l :: rest =>
      if is_comment l then read_conf_lines rest ret_
      else
        do r1 <- match scan_verbose l with
                 | Some val => upd_globals (set_verbose val);; ret 1
                 | None => ret ret_
                 end;
        do r2 <- match scan_timeout l with
                 | Some val => upd_globals (set_delay val);; ret 1
                 | None => ret r1
                 end;
        read_conf_lines rest r2
  end.

(** read_conf_file, lines 265-320. *)
Definition read_conf_file (reload : Z) : M Z :=
  do g <- get_globals;
  match conf_file_name g with
  | None => ret 0
  | Some name =>
      do w <- get_world;
      match conf_lines w with
      | None =>
          emit (EvSyslog "Can not open config file: %s, error: %s" [AStr name]);;
          ret (-1)
      | Some lines =>
          do r <- read_conf_lines lines (-1);
          when (r >? 0)
            (if reload =? 1
             then emit (EvSyslog "Reloaded configuration file %s of %s" [AStr name; AStr app_name])
             else emit (EvSyslog "Configuration of %s read from file %s" [AStr app_name; AStr name]));;
          ret r
      end
  end.

Inductive Signal : Type := SIGINT | SIGHUP | SIGCHLD | SIGOTHER.

(** handle_signal, lines 326-363.  The release and the removal of the lock
    file and the record written to the drift file are events of the run;
    [drift_scan] describes the drift file as the process found it. *)
Definition handle_signal (sig : Signal) : M unit :=
  match sig with
  | SIGINT =>
      LOG 0 "Debug: stopping daemon ..." [];;
      do g <- get_globals;
      when (negb (pid_fd g =? -1)) (emit (EvUnlock (pid_fd g)));;
      match pid_file_name g with
      | Some name => emit (EvUnlink name)
      | None => ret tt
      end;;
      do w <- get_world;
      when (drift_writable w)
        (do drift <- calc_drift;
         LOG 0 "Write drift %ld:%lf" [AInt (sys_clock w); ADouble drift];;
         emit (EvDriftWrite (sys_clock w) drift));;
      upd_globals (set_running 0)
  | SIGHUP =>
      LOG 0 "Debug: reloading daemon config file ..." [];;
      do _r <- read_conf_file 1;
      ret tt
  | SIGCHLD => LOG 0 "Debug: received SIGCHLD signal" []
  | SIGOTHER => ret tt
  end.

(** daemonize, lines 391-463.  [Some code]: the process has left through
    [clean_exit code]; [None]: the daemon child goes on. *)
Definition daemonize : M (option Z) :=
  do w <- get_world;
  match fork1 w with
  | ForkFailed => LOG 1 "fork failed!" [];; ret (Some EXIT_FAILURE)
  | ForkParent => ret (Some EXIT_SUCCESS)
  | ForkChild =>
      if negb (setsid_ok w) then LOG 1 "setsid failed!" [];; ret (Some EXIT_FAILURE)
      else
        match fork2 w with
        | ForkFailed => LOG 1 "fork failed!" [];; ret (Some EXIT_FAILURE)
        | ForkParent => ret (Some EXIT_SUCCESS)
        | ForkChild =>
            do g <- get_globals;
            match pid_file_name g with
            | None => ret None
            | Some _ =>
                upd_globals (set_pid_fd (lock_open w));;
                if lock_open w <? 0 then
                  LOG 1 "Can't open lockfile.!" [];; ret (Some EXIT_FAILURE)
                else if negb (lock_ok w) then
                  LOG 1 "Can't lock lockfile.!" [];; ret (Some EXIT_FAILURE)
                else emit (EvPidWrite (lock_open w));; ret None
            end
        end
  end.

(** print_help, lines 468-484 *)
Definition print_help : M unit := emit (EvPrint "help").

(** print_fp, lines 489-502 *)
Definition print_fp : M Z :=
  do time <- getRTC;
  (if truthy time then LOG 1 "Read result:%s" [ACtime time]
   else LOG 1 "Read RTC failed" []);;
  ret 0.

(** write_fp, lines 508-527 *)
Definition write_fp (c : Z) : M Z :=
  if negb (c =? -1) then
    do g <- get_globals;
    when (truthy (verbose g)) (LOG 1 "Write %d" [AInt c]);;
    if c <? 1672527600 then
      LOG 1 "Write Error epoch:%d to low." [AInt c];;
      ret 1
    else
      setRTC c 0 1;;
      ret 0
  else
    do w <- get_world;
    setRTC (sys_clock w) 1 0;;
    ret 0.

(** ** The synchroniser *)

(** sync_fp, lines 532-578.  [tdelta.tv_usec] is not set by the program and
    is not part of the event. *)
Definition sync_fp (cmdline : Z) : M Z :=
  do rtc_time0 <- getRTC;
  do w0 <- get_world;
  let system_time := sys_clock w0 in
  (if truthy rtc_time0 then
     do rtc_time <- (if negb (truthy cmdline) then
                       do drift <- get_drift_seconds (to_int rtc_time0);
                       ret (rtc_time0 + drift)
                     else ret rtc_time0);
     let time_difference := int_sub (to_int rtc_time) (to_int system_time) in
     let atime_difference := abs time_difference in
     when (atime_difference >? 30)
       (emit (EvAdjtime time_difference);;
        do w <- get_world;
        match adjtime_errno w time_difference with
        | Some errno =>
            if errno =? EINVAL then
              emit (EvSettimeofday time_difference);;
              upd_world (set_sys_clock time_difference);;
              LOG cmdline "Slewing Linux time by %d seconds." [AInt time_difference]
            else
              LOG cmdline "Slewing Linux time by %d seconds FAILED! (%d) %m"
                [AInt time_difference; AInt errno]
        | None =>
            upd_world (set_slew time_difference);;
            LOG cmdline "Slewing Linux time by %d seconds." [AInt time_difference]
        end)
   else LOG cmdline "Sync failed Update because FP RTC time is 0" []);;
  ret 0.

(** ** main *)

(** The values the switch of main has a case for, one per option found on
    the command line, with the result of the [sscanf] on its argument where
    there is one. *)
Inductive CliOpt : Type :=
| Opt_t (arg : option Z)          (* -t, --timeout, --test_conf *)
| Opt_c (arg : string)
| Opt_l (arg : string)
| Opt_d
| Opt_v
| Opt_f (arg : option Z)
| Opt_r
| Opt_u
| Opt_h
| Opt_p
| Opt_unknown.                    (* '?' *)

(** The option loop of main, lines 614-657, over the locals [action] and
    [start_daemonized].  [None]: main has returned from inside the loop. *)
Fixpoint main_options (opts : list CliOpt) (action start_daemonized : Z) : M (option (Z * Z)) :=
  match opts with
  | [] => ret (Some (action, start_daemonized))
  | o :: rest =>
      match o with
      | Opt_t arg =>
          match arg with
          | Some v => upd_globals (set_delay v)
          | None => ret tt
          end;;
          main_options rest action start_daemonized
      | Opt_c name =>
          upd_globals (set_conf_file_name (Some name));;
          main_options rest action start_daemonized
      | Opt_l name =>
          upd_globals (set_log_file_name (Some name));;
          main_options rest action start_daemonized
      | Opt_d => main_options rest action 1
      | Opt_v =>
          upd_globals (set_verbose 1);;
          main_options rest action start_daemonized
      | Opt_f arg =>
          match arg with
          | Some v => upd_globals (set_forcedate v)
          | None => ret tt
          end;;
          main_options rest 2 start_daemonized
      | Opt_r => main_options rest 3 start_daemonized
      | Opt_u => main_options rest 2 start_daemonized
      | Opt_p => main_options rest 1 start_daemonized
      | Opt_h | Opt_unknown => print_help;; ret None
      end
  end.

(** What [getopt_long] can hand to the switch, given the option string
    "l:t:f:pdhrudpv" and the table of long options of main, lines 585-596:
    the string has no 'c' and the entry for conf_file is commented out, so
    'c' is not among the values returned (-c comes back as '?'). *)
Definition from_getopt (opts : list CliOpt) : Prop :=
  forall name : string, ~ In (Opt_c name) opts.

(** One turn of the daemon's loop as the outside sees it: what happens to
    the world while the process sleeps, and the signal, if any, that ends
    the sleep. *)
Record Cycle : Type := mkCycle {
  outside : World -> World;
  signal : option Signal
}.

(** [sleep(delay)] *)
Definition sleep (c : Cycle) : M unit :=
  do g <- get_globals;
  emit (EvSleep (delay g));;
  upd_world (outside c);;
  match signal c with
  | Some sig => handle_signal sig
  | None => ret tt
  end.

(** The loop of main, lines 728-732, for as many turns as the schedule
    describes. *)
Fixpoint main_loop (sched : list Cycle) : M unit :=
  match sched with
  | [] => ret tt
  | c :: rest =>
      do g <- get_globals;
      if running g =? 1 then
        do _r <- write_fp (-1);
        sleep c;;
        main_loop rest
      else ret tt
  end.

(** [for (int x = 0; x < 10; x++) drift_data[x] = -1;], lines 721-722 *)
Definition fill_drift_data : M unit :=
  upd_globals (fun g =>
    set_drift_data (foldl (fun d x => <[x := -1]> d) (drift_data g) (seq 0 10)) g).

(** main from the opening of the system log on, lines 696-746: the daemon. *)
Definition main_daemon (sched : list Cycle) : M Z :=
  emit (EvSyslog "Started %s V:%s" [AStr app_name; AStr app_ver]);;
  do g <- get_globals;
  match log_file_name g with
  | Some name =>
      do w <- get_world;
      if log_file_ok w then upd_globals (set_log_stream (LogFile name))
      else
        emit (EvSyslog "Can not open log file: %s, error: %s" [AStr name]);;
        upd_globals (set_log_stream LogStdout)
  | None => ret tt
  end;;
  do _r <- read_conf_file 0;
  upd_globals (set_running 1);;
  fill_drift_data;;
  LOG 0 "Start loop" [];;
  do _r <- sync_fp 0;             (* initial sync from FP *)
  main_loop sched;;
  emit (EvSyslog "Stopped %s" [AStr app_name]);;
  ret EXIT_SUCCESS.

(** main, lines 583-747. *)
Definition main (argc : Z) (opts : list CliOpt) (sched : list Cycle) : M Z :=
  if argc =? 1 then print_help;; ret EXIT_SUCCESS
  else
    upd_globals (set_pid_file_name (Some "/var/run/fpclock.pid"));;
    upd_globals (set_log_stream LogStdout);;
    do parsed <- main_options opts 0 0;
    match parsed with
    | None => ret EXIT_SUCCESS
    | Some (action, start_daemonized) =>
        do g <- get_globals;
        when (truthy (verbose g))
          (LOG 1 "Version %s\n\n" [AStr app_ver];;
           LOG 1 "Verbose logging" [];;
           LOG 1 "Delay : %d" [AInt (delay g)];;
           when (negb (forcedate g =? -1)) (LOG 1 "Force epoch : %d" [AInt (forcedate g)]));;
        if truthy action then
          (if action =? 1 then do _r <- print_fp; ret tt
           else if action =? 2 then do _r <- write_fp (forcedate g); ret tt
           else if action =? 3 then do _r <- sync_fp 1; ret tt
           else ret tt);;
          ret EXIT_SUCCESS
        else if truthy start_daemonized then
          do left <- daemonize;
          match left with
          | Some code => ret code
          | None => main_daemon sched
          end
        else ret EXIT_SUCCESS
    end.

(** The process as [exec] starts it. *)
Definition boot (w : World) : State := mkState initial_globals w.

(** ** Reading the drift window *)

(** A sequence of calls, one per element. *)
Fixpoint for_each {A : Type} (f : A -> M unit) (l : list A) : M unit :=
  match l with
  | [] => ret tt
  | x :: rest => f x;; for_each f rest
  end.

(** The window as main leaves it before the loop: ten fill values, write
    index at the first slot. *)
Definition fresh_window (st : State) : Prop :=
  drift_data (globals st) = replicate 10 (-1) /\ drift_index (globals st) = 0.

(** The estimate as the specification words it: the window sorted in
    ascending order, the mean of the elements at positions 4 and 5, divided
    by the interval. *)
Definition estimateRate_spec (window : list Z) (intervalSeconds : Z) : double :=
  let sorted := merge_sort Z.le window in
  ddiv (ddiv (double_of_int (elt sorted 4 + elt sorted 5)) (double_of_int 2))
       (double_of_int intervalSeconds).

(** ** Observations on runs, and the worlds of the examples *)

(** The invariant of the ring: after the samples of [l], the slot of every
    one of the last ten samples holds it, the slots never reached hold the
    fill value, and the write index is the number of samples modulo 10. *)
Definition ring_inv (l : list Z) (st : State) : Prop :=
  length (drift_data (globals st)) = 10%nat /\
  drift_index (globals st) = Z.of_nat (length l mod 10) /\
  (forall j : nat, (length l - 10 <= j < length l)%nat ->
     drift_data (globals st) !! (j mod 10)%nat = l !! j) /\
  (forall i : nat, (length l <= i < 10)%nat -> drift_data (globals st) !! i = Some (-1)).

(** A world for the examples: a working pseudo-file, a clock register in
    step with the system clock, no drift file, and a kernel that accepts
    every slew. *)
Definition example_target : Target := mkTarget false (fun _ => INT_MIN).

Definition example_world : World :=
  mkWorld example_target 1700000000 true true false false false 1700000000 0
    (fun _ => None) None true None true ForkChild true ForkChild 3 true.

(** Samples whose pairwise differences and sums stay within [int]. *)
Definition small (x : Z) : Prop := -1073741824 <= x < 1073741824.

(** The calls that act on the system clock. *)
Definition is_clock_call (e : Event) : bool :=
  match e with
  | EvAdjtime _ | EvSettimeofday _ => true
  | _ => false
  end.

Definition clock_calls (evs : list Event) : list Event := List.filter is_clock_call evs.

(** The accesses to the front-panel clock. *)
Definition is_hw_read (e : Event) : bool :=
  match e with
  | EvProcRead | EvIoctlGet => true
  | _ => false
  end.

Definition is_hw_write (e : Event) : bool :=
  match e with
  | EvProcWrite _ | EvIoctlSet _ => true
  | _ => false
  end.

(** The ways in which the read of the front-panel clock fails. *)
Definition rtc_read_failed (w : World) : Prop :=
  (proc_present w = true /\ proc_scan_ok w = false) \/
  (proc_present w = false /\ dev_present w = false) \/
  (proc_present w = false /\ dev_present w = true /\ ioctl_get_ok w = false).

(** The difference sync_fp computes: the reading of the front-panel clock,
    with the drift seconds added unless [cmdline] is set, minus the system
    time, in [int] arithmetic. *)
Definition sync_delta (cmdline : Z) (st : State) : Z :=
  let hw := value (getRTC st) in
  let hw' := if negb (truthy cmdline)
             then hw + value (get_drift_seconds (to_int hw) st)
             else hw in
  int_sub (to_int hw') (to_int (sys_clock (world st))).

(** What a run of sync_fp did to the system clock. *)
Definition no_op (r : Outcome Z) (st : State) : Prop :=
  clock_calls (events r) = [] /\ world (after r) = world st.

(** The slew of [d] seconds is the request made; when the kernel accepts
    it, it is the only call on the system clock and [d] is left to be
    applied. *)
Definition slews_by (d : Z) (r : Outcome Z) (st : State) : Prop :=
  exists rest : list Event,
    clock_calls (events r) = EvAdjtime d :: rest /\
    (adjtime_errno (world st) d = None ->
       rest = [] /\ world (after r) = set_slew d (world st)).

(** The fallback as the specification states it: whenever the slew that
    sync_fp requests is rejected, the system clock is stepped. *)
Definition step_on_rejection (cmdline : Z) (st : State) : Prop :=
  forall delta errno : Z,
    In (EvAdjtime delta) (events (sync_fp cmdline st)) ->
    adjtime_errno (world st) delta = Some errno ->
    exists target : Z, In (EvSettimeofday target) (events (sync_fp cmdline st)).

(** A world whose front-panel clock is 100 seconds ahead of the system
    clock and whose kernel refuses adjtime with EPERM (errno 1). *)
Definition world_no_permission : World :=
  mkWorld example_target 1700000100 true true false false false 1700000000 0
    (fun _ => Some 1) None true None true ForkChild true ForkChild 3 true.

(** A world whose front-panel clock is 100000 seconds ahead and whose
    kernel refuses adjtime with EINVAL. *)
Definition world_invalid_slew : World :=
  mkWorld example_target 1700100000 true true false false false 1700000000 0
    (fun _ => Some EINVAL) None true None true ForkChild true ForkChild 3 true.

(** A world whose pseudo-file does not parse. *)
Definition world_unreadable : World :=
  mkWorld example_target 1700000000 true false false false false 1600000000 0
    (fun _ => None) None true None true ForkChild true ForkChild 3 true.

(** A world whose front-panel clock is 31 seconds ahead of the system
    clock. *)
Definition world_ahead_31 : World :=
  mkWorld example_target 1700000031 true true false false false 1700000000 0
    (fun _ => None) None true None true ForkChild true ForkChild 3 true.

(** The double nearest to 0.01 (0x3F847AE147AE147B), what the scan of the
    text "0.01" gives. *)
Definition one_hundredth : double := S754_finite false 5764607523034235 (-59).

(** A world whose drift file holds the record 1000:0.01. *)
Definition world_drift_record : World :=
  mkWorld example_target 2000 true true false false false 2000 0
    (fun _ => None) (Some (Some (1000, one_hundredth))) true None true
    ForkChild true ForkChild 3 true.

(** [z] is the double [x] with its fraction cut off: it lies on the same
    side of zero as [x], and the magnitude m * 2^e of [x] is at least |z| and
    less than |z| + 1.  NaN and the infinities have no integral part. *)
Definition integral_part (x : double) (z : Z) : Prop :=
  match x with
  | S754_zero _ => z = 0
  | S754_finite s m e =>
      (if s then z <= 0 else 0 <= z) /\
      (if 0 <=? e then Z.abs z = Z.pos m * 2 ^ e
       else Z.abs z * 2 ^ (- e) <= Z.pos m < (Z.abs z + 1) * 2 ^ (- e))
  | S754_infinity _ | S754_nan => False
  end.

(** The extrapolation as the specification words it: [z] is the product
    [elapsed * rate], taken exactly, rounded to an integer, that is, an
    integer no further than half a unit from it (whatever is done with a
    product that lies halfway). *)
Definition rounded_product_spec (elapsed : Z) (rate : double) (z : Z) : Prop :=
  match rate with
  | S754_zero _ => z = 0
  | S754_finite s m e =>
      let v := (if s then -1 else 1) * elapsed * Z.pos m in
      if 0 <=? e then z = v * 2 ^ e
      else 2 * Z.abs (z * 2 ^ (- e) - v) <= 2 ^ (- e)
  | S754_infinity _ | S754_nan => False
  end.

(** The double nearest to 0.0019, what the scan of the text "0.0019"
    gives. *)
Definition nineteen_per_10000 : double := S754_finite false 8762203435012037 (-62).

(** A world whose drift file holds the record 1000:0.0019. *)
Definition world_drift_fraction : World :=
  mkWorld example_target 2000 true true false false false 2000 0
    (fun _ => None) (Some (Some (1000, nineteen_per_10000))) true None true
    ForkChild true ForkChild 3 true.

(** The double 10000000000, what the scan of the text "1e10" gives. *)
Definition ten_billion : double := S754_finite false 5242880000000000 (-19).

(** A world whose drift file holds the record 1:1e10. *)
Definition world_drift_huge : World :=
  mkWorld example_target 2 true true false false false 2 0
    (fun _ => None) (Some (Some (1, ten_billion))) true None true
    ForkChild true ForkChild 3 true.

(** The lines written with LOG. *)
Definition is_log (e : Event) : bool :=
  match e with
  | EvLog _ _ _ => true
  | _ => false
  end.

(** The events of the write at the end of setRTC, lines 243-259. *)
Definition rtc_write_events (time logMode : Z) (w : World) : list Event :=
  if proc_present w then [EvProcWrite (to_uint time)]
  else if dev_present w then
    EvIoctlSet time ::
      (if ioctl_set_ok w then [] else [EvLog logMode "FP_IOCTL_SET_RTC failed: %m" []])
  else [].

(** The register after the write at the end of setRTC. *)
Definition rtc_written (time : Z) (w : World) : World :=
  if proc_present w then set_rtc (to_uint time) w
  else if dev_present w && ioctl_set_ok w then set_rtc time w
  else w.

(** A world whose front-panel clock is 5 seconds behind the system clock. *)
Definition world_behind_5 : World :=
  mkWorld example_target 1700000000 true true false false false 1700000005 0
    (fun _ => None) None true None true ForkChild true ForkChild 3 true.

(** A computation that makes no call on the system clock. *)
Definition quiet {A : Type} (m : M A) : Prop :=
  forall st : State, clock_calls (events (m st)) = [].

(** A computation that leaves the world as it is. *)
Definition keeps_world {A : Type} (m : M A) : Prop :=
  forall st : State, world (after (m st)) = world st.

(** A computation whose calls on the system clock are those of one
    sync_fp(0), run in the world the computation starts in. *)
Definition syncs_once {A : Type} (m : M A) : Prop :=
  forall st : State,
    exists st1 : State,
      world st1 = world st /\
      clock_calls (events (m st)) = clock_calls (events (sync_fp 0 st1)) /\
      (forall e : Event, In e (events (sync_fp 0 st1)) -> In e (events (m st))).

(** The startup as the specification states it: the first synchronisation
    compares the raw reading with the system clock, so that a nonzero
    reading within 30 seconds of the system clock leads to no call on the
    system clock. *)
Definition startup_sync_raw (w : World) : Prop :=
  forall hw : Z,
    value (getRTC (boot w)) = hw -> hw <> 0 ->
    Z.abs (hw - sys_clock w) <= 30 ->
    clock_calls (events (main 2 [Opt_d] [] (boot w))) = [].

(** A world whose front-panel clock agrees with the system clock, 10000
    seconds after the drift record 1700000000:0.01 was saved. *)
Definition world_drifted : World :=
  mkWorld example_target 1700010000 true true false false false 1700010000 0
    (fun _ => None) (Some (Some (1700000000, one_hundredth))) true None true
    ForkChild true ForkChild 3 true.

(** A world without a readable front-panel clock: neither the pseudo-file
    nor the device node is there. *)
Definition world_no_clock : World :=
  mkWorld example_target 0 false false false false false 1700000000 0
    (fun _ => None) None true None true ForkChild true ForkChild 3 true.

(** Half an hour passes on the system clock. *)
Definition half_hour (w : World) : World := set_sys_clock (sys_clock w + 1800) w.

(** Six turns of the loop, the sixth sleep ended by SIGINT. *)
Definition six_turns : list Cycle :=
  replicate 5 (mkCycle half_hour None) ++ [mkCycle half_hour (Some SIGINT)].

(** A world whose front-panel clock is reached through the device node
    only. *)
Definition world_ioctl : World :=
  mkWorld example_target 1700000000 false false true true true 1700000007 0
    (fun _ => None) None true None true ForkChild true ForkChild 3 true.

(** The front-panel clock can be written and read back. *)
Definition clock_works (w : World) : Prop :=
  (proc_present w = true /\ proc_scan_ok w = true /\ HAVE_NO_RTC (target w) = false) \/
  (proc_present w = false /\ dev_present w = true /\
   ioctl_set_ok w = true /\ ioctl_get_ok w = true).

(** A world whose front-panel clock reads 2^31 seconds more than the system
    clock. *)
Definition world_far_ahead : World :=
  mkWorld example_target 3847483648 true true false false false 1700000000 0
    (fun _ => None) None true None true ForkChild true ForkChild 3 true.

(** ** Invariants of runs *)

(** A computation that keeps the property [P] of the state and emits only
    events with the property [E]. *)
Definition inv_run (P : State -> Prop) (E : Event -> Prop) {A : Type} (m : M A) : Prop :=
  forall st : State, P st -> P (after (m st)) /\ Forall E (events (m st)).

(** The window is an array of ten slots and the write index points into
    it. *)
Definition window_ok (st : State) : Prop :=
  length (drift_data (globals st)) = 10%nat /\ 0 <= drift_index (globals st) <= 9.

Definition any_event (e : Event) : Prop := True.

(** The lines of a configuration file that read_conf_file looks at, and
    whether one of its two patterns matches a line. *)
Definition conf_active (lines : list ConfLine) : list ConfLine :=
  List.filter (fun l => negb (is_comment l)) lines.

Definition conf_matches (l : ConfLine) : bool :=
  match scan_verbose l, scan_timeout l with
  | None, None => false
  | _, _ => true
  end.

(** The messages read_conf_file sends to the system log. *)
Definition is_conf_syslog (e : Event) : bool :=
  match e with
  | EvSyslog fmt _ =>
      String.eqb fmt "Reloaded configuration file %s of %s"
      || String.eqb fmt "Configuration of %s read from file %s"
      || String.eqb fmt "Can not open config file: %s, error: %s"
  | _ => false
  end.

Definition no_conf_syslog (e : Event) : Prop := is_conf_syslog e = false.

(** No configuration file is named, and verbosity and interval satisfy
    [Q]. *)
Definition conf_inv (Q : Z -> Z -> Prop) (st : State) : Prop :=
  conf_file_name (globals st) = None /\ Q (verbose (globals st)) (delay (globals st)).

(** A configuration file of four lines. *)
Definition example_conf : list ConfLine :=
  [mkConfLine false (Some 1) None; mkConfLine true (Some 0) None;
   mkConfLine false None (Some 600); mkConfLine false None (Some 900)].

Definition world_with_conf : World :=
  mkWorld example_target 1700000000 true true false false false 1700000000 0
    (fun _ => None) None true (Some example_conf) true ForkChild true ForkChild 3 true.

Definition state_with_conf : State :=
  mkState (mkGlobals 0 (-1) 0 1800 (Some "/etc/fpclock.conf") None None (-1) LogStdout
             (replicate 10 0) 0)
          world_with_conf.

(** A cycle whose sleep is ended by SIGINT, and one whose sleep runs out. *)
Definition cycle_sigint : Cycle := mkCycle half_hour (Some SIGINT).
Definition cycle_quiet : Cycle := mkCycle half_hour None.

(** The ways in which daemonize leaves through clean_exit(EXIT_FAILURE),
    for a process that has a lock file name. *)
Definition boot_failed (w : World) : Prop :=
  fork1 w = ForkFailed \/
  (fork1 w = ForkChild /\ setsid_ok w = false) \/
  (fork1 w = ForkChild /\ setsid_ok w = true /\ fork2 w = ForkFailed) \/
  (fork1 w = ForkChild /\ setsid_ok w = true /\ fork2 w = ForkChild /\
   (lock_open w < 0 \/ lock_ok w = false)).

(** A world in which another daemon holds the lock. *)
Definition world_locked : World :=
  mkWorld example_target 1700000000 true true false false false 1700000000 0
    (fun _ => None) None true None true ForkChild true ForkChild 3 false.

(** The state in which main enters its option loop, lines 606-612. *)
Definition main_start (st : State) : State :=
  mkState (set_log_stream LogStdout
             (set_pid_file_name (Some "/var/run/fpclock.pid") (globals st)))
          (world st).

(** The events that only the daemon produces: the pid written to the lock
    file, the sleep of the loop, the messages to the system log, and what
    the signal handler does at the end. *)
Definition is_daemon_event (e : Event) : bool :=
  match e with
  | EvPidWrite _ | EvSleep _ | EvSyslog _ _ | EvDriftWrite _ _ | EvUnlock _ | EvUnlink _ => true
  | _ => false
  end.

Definition no_daemon_event (e : Event) : Prop := is_daemon_event e = false.

Definition is_help (e : Event) : Prop := e = EvPrint "help".

(** The world and the name of the lock file are as given. *)
Definition opt_inv (w : World) (p : option string) (st : State) : Prop :=
  world st = w /\ pid_file_name (globals st) = p.

Definition always (st : State) : Prop := True.

(** Predicates on events and states for the actions of the command line. *)
Definition no_hw_write (e : Event) : Prop := is_hw_write e = false.
Definition no_clock_call (e : Event) : Prop := is_clock_call e = false.
Definition reads_only (e : Event) : Prop := is_hw_write e = false /\ is_clock_call e = false.
Definition world_is (w : World) (st : State) : Prop := world st = w.
Definition sys_clock_is (s : Z) (st : State) : Prop := sys_clock (world st) = s.
Definition rtc_is (r : Z) (st : State) : Prop := rtc (world st) = r.

(** * Properties *)

(** ** Integer casts *)

Lemma to_int_id (z : Z) : INT_MIN <= z <= INT_MAX -> to_int z = z.
Proof.
  unfold to_int, INT_MIN, INT_MAX. intros H.
  rewrite Z.mod_small by lia. lia.
Qed.

Lemma to_int_sub_casts (a b : Z) : int_sub (to_int a) (to_int b) = to_int (a - b).
Proof.
  unfold int_sub, to_int. f_equal.
  replace ((a + 2147483648) mod 4294967296 - 2147483648 -
           ((b + 2147483648) mod 4294967296 - 2147483648) + 2147483648)
    with ((a + 2147483648) mod 4294967296 - (b + 2147483648) mod 4294967296 + 2147483648) by lia.
  rewrite <- Zplus_mod_idemp_l, <- Zminus_mod, Zplus_mod_idemp_l.
  f_equal. lia.
Qed.

Lemma abs_small (d : Z) : INT_MIN < d <= INT_MAX -> abs d = Z.abs d.
Proof. intros H. unfold abs. apply to_int_id. unfold INT_MIN, INT_MAX in *. lia. Qed.

(** ** The drift window *)

Lemma add_drift_zero (st : State) : add_drift 0 st = mkOutcome tt st [].
Proof. reflexivity. Qed.

Lemma add_drift_nonzero (x : Z) (st : State) :
  x <> 0 -> 0 <= drift_index (globals st) <= 9 ->
  after (add_drift x st) =
    mkState
      (set_drift_index
         (if drift_index (globals st) + 1 >? 9 then 0 else drift_index (globals st) + 1)
         (set_drift_data (<[Z.to_nat (drift_index (globals st)) := x]> (drift_data (globals st)))
            (globals st)))
      (world st).
Proof.
  intros Hx Hi. unfold add_drift, when.
  destruct (x =? 0) eqn:E; [apply Z.eqb_eq in E; contradiction|].
  cbn. unfold int_add. rewrite to_int_id by (unfold INT_MIN, INT_MAX; lia).
  destruct (drift_index (globals st) + 1 >? 9); reflexivity.
Qed.

Lemma for_each_app {A : Type} (f : A -> M unit) (l1 l2 : list A) (st : State) :
  after (for_each f (l1 ++ l2) st) = after (for_each f l2 (after (for_each f l1 st))).
Proof.
  revert st. induction l1 as [|x l1 IH]; intros st; [reflexivity|].
  cbn. apply IH.
Qed.

Lemma mod10_lt (n : nat) : (n mod 10 < 10)%nat.
Proof. apply Nat.mod_upper_bound. lia. Qed.

Lemma mod10_succ (n : nat) :
  ((S n) mod 10 = if Nat.eqb (n mod 10) 9 then 0 else S (n mod 10))%nat.
Proof.
  pose proof (Nat.div_mod_eq n 10) as H1.
  pose proof (Nat.div_mod_eq (S n) 10) as H2.
  pose proof (mod10_lt n). pose proof (mod10_lt (S n)).
  destruct (Nat.eqb_spec (n mod 10) 9); lia.
Qed.

Lemma mod10_apart (j n : nat) : (n - 9 <= j < n)%nat -> (j mod 10 <> n mod 10)%nat.
Proof.
  intros H E.
  pose proof (Nat.div_mod_eq n 10) as H1.
  pose proof (Nat.div_mod_eq j 10) as H2.
  lia.
Qed.

Lemma ring_inv_fresh (st : State) : fresh_window st -> ring_inv [] st.
Proof.
  intros [Hd Hi]. unfold ring_inv. rewrite Hd, Hi. cbn.
  repeat split; try lia.
  intros i Hi'. do 10 (destruct i as [|i]; [reflexivity|]). lia.
Qed.

Lemma ring_inv_step (l : list Z) (x : Z) (st : State) :
  x <> 0 -> ring_inv l st -> ring_inv (l ++ [x]) (after (add_drift x st)).
Proof.
  intros Hx (Hlen & Hidx & Hrec & Hfill).
  pose proof (mod10_lt (length l)) as Hlt.
  rewrite add_drift_nonzero by (rewrite ?Hidx; lia).
  unfold ring_inv.
  cbn [globals drift_data drift_index set_drift_index set_drift_data].
  rewrite Hidx, Nat2Z.id, length_insert, length_app.
  replace (length l + length [x])%nat with (S (length l)) by (cbn [length]; lia).
  split; [exact Hlen|]. split.
  - rewrite mod10_succ. destruct (Nat.eqb_spec (length l mod 10) 9) as [E|E].
    + rewrite E. reflexivity.
    + destruct (Z.of_nat (length l mod 10) + 1 >? 9) eqn:G; lia.
  - split.
    + intros j Hj. destruct (decide (j = length l)) as [->|Hne].
      * rewrite list_lookup_insert_eq by lia.
        rewrite lookup_app_r by lia. rewrite Nat.sub_diag. reflexivity.
      * rewrite list_lookup_insert_ne by (apply not_eq_sym, mod10_apart; lia).
        rewrite lookup_app_l by lia. apply Hrec. lia.
    + intros i Hi. rewrite list_lookup_insert_ne.
      * apply Hfill. lia.
      * rewrite Nat.mod_small by lia. lia.
Qed.

Lemma ring_inv_for_each (l : list Z) (st : State) :
  Forall (fun x => x <> 0) l -> fresh_window st ->
  ring_inv l (after (for_each add_drift l st)).
Proof.
  induction l as [|x l IH] using rev_ind; intros Hnz Hfresh.
  - apply ring_inv_fresh, Hfresh.
  - apply Forall_app in Hnz as [Hl Hx]. apply Forall_inv in Hx.
    rewrite for_each_app. cbn. apply ring_inv_step; auto.
Qed.

Lemma fill_drift_data_fresh (w : World) :
  fresh_window (after (fill_drift_data (boot w))).
Proof. split; reflexivity. Qed.

Lemma residue_in_decade (b i : nat) :
  (i < 10)%nat -> exists j : nat, (b <= j < b + 10)%nat /\ (j mod 10 = i)%nat.
Proof.
  intros Hi.
  pose proof (Nat.div_mod_eq b 10) as Hb. pose proof (mod10_lt b) as Hr.
  destruct (le_lt_dec (b mod 10) i) as [Hle|Hgt].
  - exists (10 * (b / 10) + i)%nat. split; [lia|].
    symmetry. apply (Nat.mod_unique _ 10 (b / 10)); lia.
  - exists (10 * (S (b / 10)) + i)%nat. split; [lia|].
    symmetry. apply (Nat.mod_unique _ 10 (S (b / 10))); lia.
Qed.

(** C9: a call of add_drift with the sample 0 leaves every slot of the drift
    window and the write index as they were, in every state; nothing else
    changes either and nothing is written to a log. *)
Theorem add_drift_zero_frame (st : State) :
  drift_data (globals (after (add_drift 0 st))) = drift_data (globals st) /\
  drift_index (globals (after (add_drift 0 st))) = drift_index (globals st) /\
  after (add_drift 0 st) = st /\
  events (add_drift 0 st) = [].
Proof. rewrite add_drift_zero. repeat split; reflexivity. Qed.

(** C4: starting from the window that main fills with -1, after any sequence
    of n nonzero samples given to add_drift the window still has its 10
    slots; the write index is n modulo 10; each of the first min(n,10) slots
    holds one of the last min(n,10) samples (the sample at position j of the
    sequence sits in slot j modulo 10) and the other slots still hold the
    fill value; and once ten samples are in, the next nonzero sample goes
    into the slot of the oldest of them, the one recorded ten calls ago. *)
Theorem add_drift_ring (l : list Z) (st : State) :
  fresh_window st -> Forall (fun x => x <> 0) l ->
  let n := length l in
  let st' := after (for_each add_drift l st) in
  let window := drift_data (globals st') in
  length window = 10%nat /\
  drift_index (globals st') = Z.of_nat (n mod 10) /\
  (forall i : nat, (i < Nat.min n 10)%nat ->
     exists j : nat, (n - 10 <= j < n)%nat /\ (j mod 10 = i)%nat /\ window !! i = l !! j) /\
  (forall i : nat, (Nat.min n 10 <= i < 10)%nat -> window !! i = Some (-1)) /\
  (forall x : Z, x <> 0 -> (10 <= n)%nat ->
     window !! (n mod 10)%nat = l !! (n - 10)%nat /\
     drift_data (globals (after (add_drift x st'))) = <[(n mod 10)%nat := x]> window /\
     drift_index (globals (after (add_drift x st'))) = Z.of_nat (S n mod 10)).
Proof.
  intros Hfresh Hnz n st' window.
  pose proof (ring_inv_for_each l st Hnz Hfresh) as Hinv.
  destruct Hinv as (Hlen & Hidx & Hrec & Hfill).
  fold st' in Hlen, Hidx, Hrec, Hfill. fold window in Hlen, Hrec, Hfill. fold n in Hidx, Hrec, Hfill.
  split; [exact Hlen|]. split; [exact Hidx|]. split; [|split].
  - intros i Hi.
    destruct (le_lt_dec n 10) as [Hsmall|Hbig].
    + exists i. split; [lia|]. split; [apply Nat.mod_small; lia|].
      rewrite <- (Hrec i) by lia. rewrite Nat.mod_small by lia. reflexivity.
    + destruct (residue_in_decade (n - 10) i) as (j & Hj & Hmod); [lia|].
      exists j. split; [lia|]. split; [exact Hmod|].
      rewrite <- (Hrec j) by lia. rewrite Hmod. reflexivity.
  - intros i Hi. apply Hfill. lia.
  - intros x Hx Hn. pose proof (mod10_lt n) as Hlt. split; [|split].
    + rewrite <- (Hrec (n - 10)%nat) by lia. f_equal.
      pose proof (Nat.div_mod_eq n 10) as Hq.
      apply (Nat.mod_unique _ 10 (n / 10 - 1)); lia.
    + rewrite add_drift_nonzero by (rewrite ?Hidx; lia).
      cbn [globals drift_data set_drift_index set_drift_data].
      rewrite Hidx, Nat2Z.id. reflexivity.
    + pose proof (ring_inv_step l x st' Hx (conj Hlen (conj Hidx (conj Hrec Hfill)))) as Hnext.
      destruct Hnext as (_ & Hidx' & _).
      rewrite Hidx', length_app. cbn [length]. fold n.
      replace (n + 1)%nat with (S n) by lia. reflexivity.
Qed.

Lemma add_drift_ring_witness :
  drift_data (globals (after (for_each add_drift [5; -3; 8; 1; 9; -2; 4; 7; 6; 3; 11; 12]
                                (after (fill_drift_data (boot example_world))))))
    = [11; 12; 8; 1; 9; -2; 4; 7; 6; 3] /\
  drift_index (globals (after (for_each add_drift [5; -3; 8; 1; 9; -2; 4; 7; 6; 3; 11; 12]
                                 (after (fill_drift_data (boot example_world))))))
    = 2.
Proof.
  split; [reflexivity|].
  refine (proj1 (proj2 (add_drift_ring [5; -3; 8; 1; 9; -2; 4; 7; 6; 3; 11; 12]
                          (after (fill_drift_data (boot example_world))) _ _))).
  - split; reflexivity.
  - repeat (constructor; [discriminate|]). constructor.
Defined.

(** ** The estimate *)

Lemma qsort_insert_perm (compar : Z -> Z -> Z) (x : Z) (l : list Z) :
  qsort_insert compar x l ≡ₚ x :: l.
Proof.
  induction l as [|y l IH]; cbn; [reflexivity|].
  destruct (compar x y <=? 0); [reflexivity|].
  rewrite IH. apply Permutation_swap.
Qed.

Lemma qsort_perm (compar : Z -> Z -> Z) (l : list Z) : qsort l compar ≡ₚ l.
Proof.
  induction l as [|x l IH]; cbn; [reflexivity|].
  fold (qsort l compar). rewrite qsort_insert_perm, IH. reflexivity.
Qed.

Lemma cmpfunc_small (a b : Z) :
  small a -> small b -> (cmpfunc a b <=? 0) = (a <=? b).
Proof.
  unfold small, cmpfunc, int_sub. intros Ha Hb.
  rewrite to_int_id by (unfold INT_MIN, INT_MAX; lia).
  destruct (Z.leb_spec (a - b) 0), (Z.leb_spec a b); lia.
Qed.

Lemma qsort_insert_sorted (x : Z) (l : list Z) :
  small x -> Forall small l -> Sorted Z.le l -> Sorted Z.le (qsort_insert cmpfunc x l).
Proof.
  intros Hx Hl Hs. induction Hs as [|y l Hs IH Hhd]; cbn.
  - repeat constructor.
  - apply Forall_cons in Hl as [Hy Hl].
    rewrite cmpfunc_small by assumption.
    destruct (Z.leb_spec x y) as [Hle|Hgt].
    + repeat constructor; assumption.
    + constructor; [apply IH, Hl|].
      destruct Hhd as [|z l Hyz]; cbn.
      * constructor. lia.
      * apply Forall_cons in Hl as [Hz _]. rewrite cmpfunc_small by assumption.
        destruct (Z.leb_spec x z); constructor; lia.
Qed.

Lemma qsort_sorted (l : list Z) : Forall small l -> Sorted Z.le (qsort l cmpfunc).
Proof.
  induction l as [|x l IH]; intros Hl; cbn; [constructor|].
  apply Forall_cons in Hl as [Hx Hl]. fold (qsort l cmpfunc).
  apply qsort_insert_sorted; [assumption| |apply IH, Hl].
  rewrite qsort_perm. exact Hl.
Qed.

(** On samples within [small], the library sort with [cmpfunc] is the
    ascending sort. *)
Lemma qsort_ascending (l : list Z) :
  Forall small l -> qsort l cmpfunc = merge_sort Z.le l.
Proof.
  intros Hl. apply (Sorted_unique Z.le).
  - apply qsort_sorted, Hl.
  - apply Sorted_merge_sort. apply _.
  - rewrite qsort_perm, merge_sort_Permutation. reflexivity.
Qed.

Lemma elt_small (l : list Z) (i : nat) : Forall small l -> small (elt l i).
Proof.
  intros Hl. unfold elt. destruct (l !! i) as [x|] eqn:E; cbn.
  - eapply Forall_lookup_1; eassumption.
  - unfold small. lia.
Qed.

(** Where no difference and no sum of two slots leaves the range of [int],
    calc_drift is the estimate of the specification, fill values included,
    and it leaves the window sorted. *)
Lemma calc_drift_small (st : State) :
  Forall small (drift_data (globals st)) ->
  value (calc_drift st) = estimateRate_spec (drift_data (globals st)) (delay (globals st)) /\
  drift_data (globals (after (calc_drift st))) = merge_sort Z.le (drift_data (globals st)).
Proof.
  intros Hl. unfold calc_drift, estimateRate_spec. cbn.
  rewrite qsort_ascending by exact Hl.
  assert (Hs : Forall small (merge_sort Z.le (drift_data (globals st)))).
  { rewrite merge_sort_Permutation. exact Hl. }
  split; [|reflexivity].
  unfold int_add. rewrite to_int_id; [reflexivity|].
  pose proof (elt_small _ 4 Hs) as H4. pose proof (elt_small _ 5 Hs) as H5.
  unfold small, INT_MIN, INT_MAX in *.
  change (Z.to_nat (9 / 2)) with 4%nat. lia.
Qed.

(** The end-to-end example of the specification: the ten samples 5, -3, 8,
    1, 9, -2, 4, 7, 6, 3 give (4 + 5) / 2 / 1800. *)
Example calc_drift_ten_samples :
  value (calc_drift (after (for_each add_drift [5; -3; 8; 1; 9; -2; 4; 7; 6; 3]
                              (after (fill_drift_data (boot example_world))))))
  = ddiv (ddiv (double_of_int 9) (double_of_int 2)) (double_of_int 1800).
Proof. vm_compute. reflexivity. Qed.

(** The fill values take part: with three samples in the window, positions
    4 and 5 of the sorted window are both -1. *)
Example calc_drift_fill_values :
  value (calc_drift (after (for_each add_drift [40; 50; 60]
                              (after (fill_drift_data (boot example_world))))))
  = ddiv (ddiv (double_of_int (-2)) (double_of_int 2)) (double_of_int 1800).
Proof. vm_compute. reflexivity. Qed.

(** C3: calc_drift adds the two middle elements as [int]s before the
    conversion to double.  In the window of ten samples -1700000000 (what
    setRTC records when the clock cannot be read at system time 1700000000),
    sorting changes nothing, the sum -3400000000 wraps to 894967296, and the
    rate returned is 447483648 / 1800, not the mean -1700000000 of the two
    middle elements divided by 1800: the result differs from the estimate
    the specification describes. *)
Theorem calc_drift_sum_wraps :
  let st := after (for_each add_drift (replicate 10 (-1700000000))
                     (after (fill_drift_data (boot example_world)))) in
  drift_data (globals st) = replicate 10 (-1700000000) /\
  delay (globals st) = 1800 /\
  value (calc_drift st) = ddiv (double_of_int 447483648) (double_of_int 1800) /\
  estimateRate_spec (drift_data (globals st)) (delay (globals st))
    = ddiv (double_of_int (-1700000000)) (double_of_int 1800) /\
  value (calc_drift st) <> estimateRate_spec (drift_data (globals st)) (delay (globals st)).
Proof.
  cbv zeta. repeat split; try (vm_compute; reflexivity).
  intros H. vm_compute in H. discriminate H.
Qed.

(** ** Runs and their events *)

Lemma bind_value {A B : Type} (m : M A) (k : A -> M B) (st : State) :
  value (bind m k st) = value (k (value (m st)) (after (m st))).
Proof. reflexivity. Qed.

Lemma bind_after {A B : Type} (m : M A) (k : A -> M B) (st : State) :
  after (bind m k st) = after (k (value (m st)) (after (m st))).
Proof. reflexivity. Qed.

Lemma bind_events {A B : Type} (m : M A) (k : A -> M B) (st : State) :
  events (bind m k st) = events (m st) ++ events (k (value (m st)) (after (m st))).
Proof. reflexivity. Qed.

(** Finds an event in a trace written out as a disjunction. *)
Ltac find_event :=
  match goal with
  | |- _ \/ _ => (left; find_event) || (right; find_event)
  | |- _ => reflexivity
  end.

Lemma clock_calls_app (a b : list Event) :
  clock_calls (a ++ b) = clock_calls a ++ clock_calls b.
Proof. apply List.filter_app. Qed.

Lemma clock_calls_In (e : Event) (evs : list Event) :
  In e (clock_calls evs) <-> In e evs /\ is_clock_call e = true.
Proof. apply List.filter_In. Qed.

(** One step of a run: the projections of a [bind] are pushed to its two
    halves and the primitive computations are evaluated. *)
Ltac mstep0 :=
  first
    [ rewrite bind_events
    | rewrite bind_after
    | rewrite bind_value
    | progress (unfold when)
    | progress (cbn beta)
    | progress (cbn [value after events get_world get_globals upd_globals upd_world emit
                     ret LOG globals world fst snd]) ].

Ltac mcase :=
  match goal with
  | |- context [(if ?c then _ else _) _] =>
      lazymatch c with
      | context [if _ then _ else _] => fail
      | _ => destruct c eqn:?
      end
  | |- context [(match ?x with Some _ => _ | None => _ end) _] => destruct x eqn:?
  end.

Ltac mrun0 := repeat mstep0; repeat (mcase; repeat mstep0).

(** *** getRTC *)

Lemma getRTC_after (st : State) : after (getRTC st) = st.
Proof. unfold getRTC. mrun0; reflexivity. Qed.

Lemma getRTC_clock_calls (st : State) : clock_calls (events (getRTC st)) = [].
Proof. unfold getRTC. mrun0; reflexivity. Qed.

Lemma getRTC_no_write (st : State) : Forall (fun e => is_hw_write e = false) (events (getRTC st)).
Proof. unfold getRTC. mrun0; cbn [app]; repeat constructor. Qed.

Lemma getRTC_value (st : State) :
  value (getRTC st) =
    if proc_present (world st) then
      if proc_scan_ok (world st)
      then (if HAVE_NO_RTC (target (world st)) then 0 else to_uint (rtc (world st)))
      else 0
    else if dev_present (world st) then
      if ioctl_get_ok (world st) then rtc (world st) else 0
    else 0.
Proof. unfold getRTC. mrun0; reflexivity. Qed.

Lemma getRTC_value_world (st st' : State) :
  world st = world st' -> value (getRTC st) = value (getRTC st').
Proof. intros E. rewrite !getRTC_value, E. reflexivity. Qed.

Lemma getRTC_failed (st : State) : rtc_read_failed (world st) -> value (getRTC st) = 0.
Proof.
  rewrite getRTC_value. unfold rtc_read_failed.
  intros [[-> ->]|[[-> ->]|(-> & -> & ->)]]; reflexivity.
Qed.

(** *** get_drift_seconds *)

Lemma get_drift_seconds_events (r : Z) (st : State) :
  exists logs : list Event,
    events (get_drift_seconds r st) = EvDriftOpen :: logs /\ forallb is_log logs = true.
Proof.
  unfold get_drift_seconds. repeat mstep0.
  destruct (drift_scan (world st)) as [[[lastsave drift]|]|]; repeat mstep0.
  - destruct (dnonzero drift && negb (lastsave =? 0)); repeat mstep0.
    + destruct (truthy (verbose (globals st))); eexists; split; reflexivity.
    + eexists; split; reflexivity.
  - eexists; split; reflexivity.
  - eexists; split; reflexivity.
Qed.

Lemma get_drift_seconds_after (r : Z) (st : State) : after (get_drift_seconds r st) = st.
Proof.
  unfold get_drift_seconds. repeat mstep0.
  destruct (drift_scan (world st)) as [[[lastsave drift]|]|]; repeat mstep0; try reflexivity.
  destruct (dnonzero drift && negb (lastsave =? 0)); repeat mstep0; [|reflexivity].
  destruct (truthy (verbose (globals st))); reflexivity.
Qed.

Lemma clock_calls_logs (logs : list Event) : forallb is_log logs = true -> clock_calls logs = [].
Proof.
  induction logs as [|e logs IH]; [reflexivity|]. cbn [forallb].
  intros H. apply andb_prop in H as [He Hl].
  destruct e; try discriminate He. cbn. apply IH, Hl.
Qed.

Lemma get_drift_seconds_clock_calls (r : Z) (st : State) :
  clock_calls (events (get_drift_seconds r st)) = [].
Proof.
  destruct (get_drift_seconds_events r st) as (logs & -> & Hl).
  cbn. apply clock_calls_logs, Hl.
Qed.

Lemma get_drift_seconds_opens (r : Z) (st : State) :
  In EvDriftOpen (events (get_drift_seconds r st)).
Proof. destruct (get_drift_seconds_events r st) as (logs & -> & _). left. reflexivity. Qed.

Lemma get_drift_seconds_value (rtctime : Z) (st : State) :
  value (get_drift_seconds rtctime st) =
    match drift_scan (world st) with
    | Some (Some (lastsave, drift)) =>
        if dnonzero drift && negb (lastsave =? 0)
        then int_of_double (target (world st))
               (dmul (double_of_int (int_sub rtctime lastsave)) drift)
        else 0
    | _ => 0
    end.
Proof.
  unfold get_drift_seconds. repeat mstep0.
  destruct (drift_scan (world st)) as [[[lastsave drift]|]|]; repeat mstep0; try reflexivity.
  destruct (dnonzero drift && negb (lastsave =? 0)); reflexivity.
Qed.

Lemma get_drift_seconds_value_world (r : Z) (st st' : State) :
  world st = world st' -> value (get_drift_seconds r st) = value (get_drift_seconds r st').
Proof. intros E. rewrite !get_drift_seconds_value, E. reflexivity. Qed.

(** *** sync_fp *)

Ltac mstep := first [mstep0 | rewrite getRTC_after | rewrite get_drift_seconds_after].

Ltac mrun := repeat mstep; repeat (mcase; repeat mstep).

Lemma sync_fp_events (cmdline : Z) (st : State) :
  events (sync_fp cmdline st) =
    events (getRTC st) ++
    (if truthy (value (getRTC st)) then
       (if negb (truthy cmdline)
        then events (get_drift_seconds (to_int (value (getRTC st))) st) else []) ++
       (let d := sync_delta cmdline st in
        if abs d >? 30 then
          EvAdjtime d ::
          match adjtime_errno (world st) d with
          | Some errno =>
              if errno =? EINVAL
              then [EvSettimeofday d;
                    EvLog cmdline "Slewing Linux time by %d seconds." [AInt d]]
              else [EvLog cmdline "Slewing Linux time by %d seconds FAILED! (%d) %m"
                      [AInt d; AInt errno]]
          | None => [EvLog cmdline "Slewing Linux time by %d seconds." [AInt d]]
          end
        else [])
     else [EvLog cmdline "Sync failed Update because FP RTC time is 0" []]).
Proof.
  unfold sync_fp, sync_delta. cbv zeta. mrun;
    cbn [app]; rewrite ?app_nil_r; reflexivity.
Qed.

Lemma sync_fp_world (cmdline : Z) (st : State) :
  world (after (sync_fp cmdline st)) =
    if truthy (value (getRTC st)) then
      let d := sync_delta cmdline st in
      if abs d >? 30 then
        match adjtime_errno (world st) d with
        | Some errno => if errno =? EINVAL then set_sys_clock d (world st) else world st
        | None => set_slew d (world st)
        end
      else world st
    else world st.
Proof. unfold sync_fp, sync_delta. cbv zeta. mrun; reflexivity. Qed.

Lemma sync_fp_globals (cmdline : Z) (st : State) :
  globals (after (sync_fp cmdline st)) = globals st.
Proof. unfold sync_fp. cbv zeta. mrun; reflexivity. Qed.

Lemma sync_fp_clock_calls (cmdline : Z) (st : State) :
  clock_calls (events (sync_fp cmdline st)) =
    if truthy (value (getRTC st)) then
      let d := sync_delta cmdline st in
      if abs d >? 30 then
        match adjtime_errno (world st) d with
        | Some errno =>
            if errno =? EINVAL then [EvAdjtime d; EvSettimeofday d] else [EvAdjtime d]
        | None => [EvAdjtime d]
        end
      else []
    else [].
Proof.
  rewrite sync_fp_events, clock_calls_app, getRTC_clock_calls. cbv zeta. cbn [app].
  destruct (truthy (value (getRTC st))); [|reflexivity].
  rewrite clock_calls_app.
  assert (Hd : clock_calls (if negb (truthy cmdline)
                            then events (get_drift_seconds (to_int (value (getRTC st))) st)
                            else []) = []).
  { destruct (negb (truthy cmdline)); [apply get_drift_seconds_clock_calls|reflexivity]. }
  rewrite Hd. cbn [app].
  destruct (abs (sync_delta cmdline st) >? 30); [|reflexivity].
  destruct (adjtime_errno (world st) (sync_delta cmdline st)) as [e|];
    [destruct (e =? EINVAL)|]; reflexivity.
Qed.

Lemma sync_delta_exact (cmdline : Z) (st : State) :
  sync_delta cmdline st =
    to_int (value (getRTC st)
            + (if negb (truthy cmdline)
               then value (get_drift_seconds (to_int (value (getRTC st))) st) else 0)
            - sys_clock (world st)).
Proof.
  unfold sync_delta. cbv zeta. rewrite to_int_sub_casts.
  destruct (negb (truthy cmdline)); [reflexivity|]. f_equal. lia.
Qed.

Lemma sync_fp_adjtime_requested (cmdline : Z) (st : State) (delta : Z) :
  In (EvAdjtime delta) (events (sync_fp cmdline st)) ->
  truthy (value (getRTC st)) = true /\ delta = sync_delta cmdline st /\
  (abs delta >? 30) = true.
Proof.
  intros H.
  assert (Hc : In (EvAdjtime delta) (clock_calls (events (sync_fp cmdline st)))).
  { apply clock_calls_In. split; [exact H|reflexivity]. }
  rewrite sync_fp_clock_calls in Hc. cbv zeta in Hc.
  destruct (truthy (value (getRTC st))); [|destruct Hc].
  destruct (abs (sync_delta cmdline st) >? 30) eqn:Habs; [|destruct Hc].
  assert (Hd : delta = sync_delta cmdline st).
  { destruct (adjtime_errno (world st) (sync_delta cmdline st)) as [e|];
      [destruct (e =? EINVAL)|]; cbn in Hc;
      repeat (destruct Hc as [Hc|Hc]; try congruence); destruct Hc. }
  subst delta. auto.
Qed.

Lemma sync_fp_failure_logged (cmdline : Z) (st : State) (errno : Z) :
  truthy (value (getRTC st)) = true ->
  (abs (sync_delta cmdline st) >? 30) = true ->
  adjtime_errno (world st) (sync_delta cmdline st) = Some errno ->
  (errno =? EINVAL) = false ->
  In (EvLog cmdline "Slewing Linux time by %d seconds FAILED! (%d) %m"
        [AInt (sync_delta cmdline st); AInt errno])
     (events (sync_fp cmdline st)).
Proof.
  intros Hhw Habs Herr Hne.
  rewrite sync_fp_events, Hhw. cbv zeta. rewrite Habs, Herr, Hne.
  rewrite !in_app_iff. right. right. right. left. reflexivity.
Qed.

Lemma state_ext (s1 s2 : State) :
  globals s1 = globals s2 -> world s1 = world s2 -> s1 = s2.
Proof. destruct s1, s2. cbn. intros -> ->. reflexivity. Qed.

(** C7: when the read of the front-panel clock fails, or gives 0, sync_fp
    logs "Sync failed Update because FP RTC time is 0" after the events of
    the read, calls neither adjtime nor settimeofday, and leaves the whole
    state, system clock included, as it was; it returns 0. *)
Theorem sync_fp_read_failure (cmdline : Z) (st : State) :
  rtc_read_failed (world st) \/ value (getRTC st) = 0 ->
  events (sync_fp cmdline st) =
    events (getRTC st) ++ [EvLog cmdline "Sync failed Update because FP RTC time is 0" []] /\
  clock_calls (events (sync_fp cmdline st)) = [] /\
  after (sync_fp cmdline st) = st /\
  sys_clock (world (after (sync_fp cmdline st))) = sys_clock (world st) /\
  slew (world (after (sync_fp cmdline st))) = slew (world st) /\
  value (sync_fp cmdline st) = 0.
Proof.
  intros H.
  assert (H0 : value (getRTC st) = 0).
  { destruct H as [H|H]; [apply getRTC_failed, H|exact H]. }
  assert (Hafter : after (sync_fp cmdline st) = st).
  { apply state_ext; [apply sync_fp_globals|]. rewrite sync_fp_world, H0. reflexivity. }
  split; [|split; [|split; [exact Hafter|]]].
  - rewrite sync_fp_events, H0. reflexivity.
  - rewrite sync_fp_clock_calls, H0. reflexivity.
  - rewrite Hafter. repeat split; reflexivity.
Qed.

Lemma sync_fp_read_failure_witness :
  events (sync_fp 0 (boot world_unreadable)) =
    [EvProcRead; EvLog 0 "Read %s failed: %m" [AStr proc_file];
     EvLog 0 "Sync failed Update because FP RTC time is 0" []] /\
  sys_clock (world (after (sync_fp 0 (boot world_unreadable)))) = 1600000000.
Proof.
  assert (H : rtc_read_failed (world (boot world_unreadable)) \/
              value (getRTC (boot world_unreadable)) = 0).
  { left. left. split; reflexivity. }
  destruct (sync_fp_read_failure 0 (boot world_unreadable) H) as (He & _ & _ & Hc & _).
  split; [exact He|exact Hc].
Defined.

Lemma sync_fp_within_band (cmdline : Z) (st : State) :
  truthy (value (getRTC st)) = true ->
  (abs (sync_delta cmdline st) >? 30) = false ->
  no_op (sync_fp cmdline st) st.
Proof.
  intros Hhw Habs. unfold no_op.
  rewrite sync_fp_clock_calls, sync_fp_world, Hhw. cbv zeta. rewrite Habs.
  split; reflexivity.
Qed.

Lemma sync_fp_beyond_band (cmdline : Z) (st : State) :
  truthy (value (getRTC st)) = true ->
  (abs (sync_delta cmdline st) >? 30) = true ->
  slews_by (sync_delta cmdline st) (sync_fp cmdline st) st.
Proof.
  intros Hhw Habs. unfold slews_by.
  rewrite sync_fp_clock_calls, sync_fp_world, Hhw. cbv zeta. rewrite Habs.
  destruct (adjtime_errno (world st) (sync_delta cmdline st)) as [e|].
  - destruct (e =? EINVAL); eexists; (split; [reflexivity|discriminate]).
  - exists []. split; [reflexivity|]. intros _. split; reflexivity.
Qed.

Lemma truthy_nonzero (z : Z) : z <> 0 -> truthy z = true.
Proof. intros H. unfold truthy. destruct (Z.eqb_spec z 0); [contradiction|reflexivity]. Qed.

(** C2: let hw be the nonzero reading of the front-panel clock, drift the
    seconds get_drift_seconds adds to it (none when [cmdline] is set), and
    delta = hw + drift - system time.  If |delta| <= 30, sync_fp calls
    neither adjtime nor settimeofday and leaves the world as it was.  If
    delta = 31 the call made is adjtime with 31 seconds, if delta = -31 it
    is adjtime with -31 seconds, and so for every delta beyond the band that
    fits an [int]; when the kernel accepts the call nothing else is done to
    the system clock. *)
Theorem sync_fp_tolerance_band (cmdline : Z) (st : State) (hw drift delta : Z) :
  value (getRTC st) = hw -> hw <> 0 ->
  drift = (if negb (truthy cmdline) then value (get_drift_seconds (to_int hw) st) else 0) ->
  delta = hw + drift - sys_clock (world st) ->
  (Z.abs delta <= 30 -> no_op (sync_fp cmdline st) st) /\
  (delta = 31 -> slews_by 31 (sync_fp cmdline st) st) /\
  (delta = -31 -> slews_by (-31) (sync_fp cmdline st) st) /\
  (30 < Z.abs delta <= INT_MAX -> slews_by delta (sync_fp cmdline st) st).
Proof.
  intros Hhw Hnz Hdrift Hdelta.
  assert (Ht : truthy (value (getRTC st)) = true) by (rewrite Hhw; apply truthy_nonzero, Hnz).
  assert (Hd : sync_delta cmdline st = to_int delta).
  { rewrite sync_delta_exact, Hhw, <- Hdrift, <- Hdelta. reflexivity. }
  assert (Hbeyond : 30 < Z.abs delta <= INT_MAX -> slews_by delta (sync_fp cmdline st) st).
  { intros Hb.
    assert (Hid : to_int delta = delta) by (apply to_int_id; unfold INT_MIN, INT_MAX in *; lia).
    rewrite <- Hid, <- Hd. apply sync_fp_beyond_band; [exact Ht|].
    rewrite Hd, Hid, abs_small by (unfold INT_MIN, INT_MAX in *; lia).
    apply Z.gtb_lt. lia. }
  split; [|split; [|split]].
  - intros Hb. apply sync_fp_within_band; [exact Ht|].
    rewrite Hd, to_int_id by (unfold INT_MIN, INT_MAX; lia).
    rewrite abs_small by (unfold INT_MIN, INT_MAX; lia).
    destruct (Z.gtb_spec (Z.abs delta) 30); [lia|reflexivity].
  - intros E. rewrite <- E. apply Hbeyond. rewrite E. unfold INT_MAX. lia.
  - intros E. rewrite <- E. apply Hbeyond. rewrite E. unfold INT_MAX. lia.
  - exact Hbeyond.
Qed.

Lemma sync_fp_tolerance_band_witness : slews_by 31 (sync_fp 1 (boot world_ahead_31)) (boot world_ahead_31).
Proof.
  refine (proj1 (proj2 (sync_fp_tolerance_band 1 (boot world_ahead_31) 1700000031 0 31 _ _ _ _)) _).
  - reflexivity.
  - discriminate.
  - reflexivity.
  - reflexivity.
  - reflexivity.
Defined.

(** C1 (as amended): when adjtime rejects the slew that sync_fp requests
    with EINVAL, sync_fp goes on to step the system clock with settimeofday;
    when adjtime rejects it with any other error, sync_fp makes no further
    call on the system clock: it logs the failure and leaves the world as it
    was. *)
Theorem sync_fp_slew_rejected (cmdline : Z) (st : State) (delta errno : Z) :
  In (EvAdjtime delta) (events (sync_fp cmdline st)) ->
  adjtime_errno (world st) delta = Some errno ->
  (errno = EINVAL ->
     exists target : Z,
       clock_calls (events (sync_fp cmdline st)) = [EvAdjtime delta; EvSettimeofday target] /\
       sys_clock (world (after (sync_fp cmdline st))) = target) /\
  (errno <> EINVAL ->
     clock_calls (events (sync_fp cmdline st)) = [EvAdjtime delta] /\
     world (after (sync_fp cmdline st)) = world st /\
     In (EvLog cmdline "Slewing Linux time by %d seconds FAILED! (%d) %m"
           [AInt delta; AInt errno])
        (events (sync_fp cmdline st))).
Proof.
  intros Hreq Herr.
  destruct (sync_fp_adjtime_requested cmdline st delta Hreq) as (Hhw & Hd & Habs).
  subst delta. split.
  - intros ->. eexists.
    rewrite sync_fp_clock_calls, sync_fp_world, Hhw. cbv zeta. rewrite Habs, Herr.
    split; reflexivity.
  - intros Hne.
    assert (Hneb : (errno =? EINVAL) = false) by (apply Z.eqb_neq, Hne).
    rewrite sync_fp_clock_calls, sync_fp_world, Hhw. cbv zeta. rewrite Habs, Herr, Hneb.
    split; [reflexivity|]. split; [reflexivity|].
    apply sync_fp_failure_logged; assumption.
Qed.

Lemma sync_fp_slew_rejected_witness :
  clock_calls (events (sync_fp 1 (boot world_no_permission))) = [EvAdjtime 100] /\
  world (after (sync_fp 1 (boot world_no_permission))) = world_no_permission.
Proof.
  assert (Hreq : In (EvAdjtime 100) (events (sync_fp 1 (boot world_no_permission)))).
  { vm_compute. find_event. }
  assert (Herr : adjtime_errno (world (boot world_no_permission)) 100 = Some 1) by reflexivity.
  destruct (sync_fp_slew_rejected 1 (boot world_no_permission) 100 1 Hreq Herr) as [_ H].
  destruct H as (Hc & Hw & _); [discriminate|].
  split; [exact Hc|exact Hw].
Defined.

(** C1 (as stated) fails: with the front-panel clock 100 seconds ahead and a
    kernel that refuses adjtime with EPERM, the slew of 100 seconds is
    requested and rejected, and no step follows. *)
Lemma sync_fp_no_step_without_EINVAL : ~ step_on_rejection 1 (boot world_no_permission).
Proof.
  intros H.
  destruct (H 100 1) as [target Ht].
  - vm_compute. find_event.
  - reflexivity.
  - vm_compute in Ht. repeat (destruct Ht as [Ht|Ht]; [discriminate Ht|]). exact Ht.
Qed.

(** Where the step is made, the value handed to settimeofday is the
    difference itself: with the front-panel clock 100000 seconds ahead and
    adjtime refused with EINVAL, the system clock is set to 100000, not to
    the reading 1700100000. *)
Example sync_fp_steps_to_the_difference :
  value (getRTC (boot world_invalid_slew)) = 1700100000 /\
  clock_calls (events (sync_fp 1 (boot world_invalid_slew))) =
    [EvAdjtime 100000; EvSettimeofday 100000] /\
  sys_clock (world (after (sync_fp 1 (boot world_invalid_slew)))) = 100000.
Proof. repeat split; vm_compute; reflexivity. Qed.

(** ** Extrapolation *)

Example one_hundredth_quotient : ddiv (double_of_int 1) (double_of_int 100) = one_hundredth.
Proof. vm_compute. reflexivity. Qed.

(** The conversion to an integer cuts the fraction off: the result has the
    sign of the double and its magnitude is the integral part of the
    magnitude m * 2^e of the double. *)
Lemma dtrunc_toward_zero (s : bool) (m : positive) (e z : Z) :
  dtrunc (S754_finite s m e) = Some z ->
  (s = true -> z <= 0) /\ (s = false -> 0 <= z) /\
  (0 <= e -> Z.abs z = Z.pos m * 2 ^ e) /\
  (e < 0 -> Z.abs z * 2 ^ (- e) <= Z.pos m < (Z.abs z + 1) * 2 ^ (- e)).
Proof.
  cbn. intros H. injection H as <-.
  destruct (Z.leb_spec 0 e) as [He|He].
  - assert (0 < Z.pos m * 2 ^ e) by (apply Z.mul_pos_pos; [lia|apply Z.pow_pos_nonneg; lia]).
    destruct s; repeat split; intros; lia.
  - assert (Hp : 0 < 2 ^ (- e)) by (apply Z.pow_pos_nonneg; lia).
    pose proof (Z.div_pos (Z.pos m) (2 ^ (- e)) ltac:(lia) Hp) as Hq.
    pose proof (Z.mul_div_le (Z.pos m) (2 ^ (- e)) Hp) as Hlo.
    pose proof (Z.mul_succ_div_gt (Z.pos m) (2 ^ (- e)) Hp) as Hhi.
    destruct s; repeat split; intros; try lia;
      rewrite ?Z.abs_opp, Z.abs_eq by lia; lia.
Qed.

Lemma integral_part_dtrunc (x : double) (z : Z) : integral_part x z <-> dtrunc x = Some z.
Proof.
  destruct x as [s| | |s m e]; cbn [integral_part dtrunc];
    try (split; [contradiction|discriminate]).
  - split; [intros ->; reflexivity|intros [= <-]; reflexivity].
  - destruct (Z.leb_spec 0 e) as [He|He].
    + assert (0 < Z.pos m * 2 ^ e) by (apply Z.mul_pos_pos; [lia|apply Z.pow_pos_nonneg; lia]).
      split.
      * intros [Hs Hm]. f_equal. destruct s; lia.
      * intros [= <-]. destruct s; split; lia.
    + assert (Hp : 0 < 2 ^ (- e)) by (apply Z.pow_pos_nonneg; lia).
      pose proof (Z.div_pos (Z.pos m) (2 ^ (- e)) ltac:(lia) Hp) as Hq.
      pose proof (Z.mul_div_le (Z.pos m) (2 ^ (- e)) Hp) as Hlo.
      pose proof (Z.mul_succ_div_gt (Z.pos m) (2 ^ (- e)) Hp) as Hhi.
      split.
      * intros [Hs [H1 H2]]. f_equal.
        assert (Hq' : Z.pos m / 2 ^ (- e) = Z.abs z).
        { symmetry. apply (Z.div_unique (Z.pos m) (2 ^ (- e)) (Z.abs z)
                             (Z.pos m - 2 ^ (- e) * Z.abs z)); lia. }
        rewrite Hq'. destruct s; lia.
      * intros [= <-]. destruct s; (split; [lia|]);
          rewrite ?Z.abs_opp, Z.abs_eq by lia; lia.
Qed.




(** *** setRTC *)

Lemma add_drift_events (x : Z) (st : State) : events (add_drift x st) = [].
Proof. unfold add_drift. mrun; reflexivity. Qed.

Lemma add_drift_world (x : Z) (st : State) : world (after (add_drift x st)) = world st.
Proof. unfold add_drift. mrun; reflexivity. Qed.

Lemma add_drift_verbose (x : Z) (st : State) :
  verbose (globals (after (add_drift x st))) = verbose (globals st).
Proof. unfold add_drift. mrun; reflexivity. Qed.

Lemma add_drift_skipped (x : Z) (st : State) :
  negb (x =? 0) = false -> after (add_drift x st) = st.
Proof. intros H. unfold add_drift. rewrite H. reflexivity. Qed.

Ltac mstep_setRTC :=
  first [mstep | rewrite add_drift_events | rewrite add_drift_world | rewrite add_drift_verbose].

Ltac mrun_setRTC := repeat mstep_setRTC; repeat (mcase; repeat mstep_setRTC).

Lemma setRTC_globals (time saveDrift logMode : Z) (st : State) :
  saveDrift <> 0 ->
  globals (after (setRTC time saveDrift logMode st)) =
  globals (after (add_drift (int_sub (to_int (value (getRTC st))) (to_int time)) st)).
Proof.
  intros Hsd. apply truthy_nonzero in Hsd.
  unfold setRTC. rewrite Hsd. mrun_setRTC;
    rewrite ?add_drift_skipped by assumption; reflexivity.
Qed.

Lemma setRTC_globals_unsampled (time logMode : Z) (st : State) :
  globals (after (setRTC time 0 logMode st)) = globals st.
Proof. unfold setRTC. cbn [truthy Z.eqb negb]. mrun_setRTC; reflexivity. Qed.

Lemma setRTC_world (time saveDrift logMode : Z) (st : State) :
  world (after (setRTC time saveDrift logMode st)) = rtc_written time (world st).
Proof. unfold setRTC, rtc_written. mrun_setRTC; reflexivity. Qed.

Lemma setRTC_events (time saveDrift logMode : Z) (st : State) :
  saveDrift <> 0 ->
  let sample := int_sub (to_int (value (getRTC st))) (to_int time) in
  events (setRTC time saveDrift logMode st) =
    (if truthy (verbose (globals st))
     then [EvLog logMode "Set FP RTC time to %s" [ACtime time]] else []) ++
    events (getRTC st) ++
    (if negb (sample =? 0) && truthy (verbose (globals st))
     then [EvLog logMode "FP RTC time drift value:%d / data:%d %d %d %d %d %d %d %d %d %d"
             (AInt sample ::
              map AInt (take 10 (drift_data (globals (after (add_drift sample st))))))]
     else []) ++
    rtc_write_events time logMode (world st).
Proof.
  intros Hsd. apply truthy_nonzero in Hsd. cbv zeta.
  unfold setRTC, rtc_write_events. rewrite Hsd. mrun_setRTC;
    try congruence; cbn [app andb]; rewrite ?app_nil_r, <- ?app_assoc; reflexivity.
Qed.

Lemma setRTC_events_unsampled (time logMode : Z) (st : State) :
  events (setRTC time 0 logMode st) =
    (if truthy (verbose (globals st))
     then [EvLog logMode "Set FP RTC time to %s" [ACtime time]] else []) ++
    rtc_write_events time logMode (world st).
Proof.
  unfold setRTC, rtc_write_events. cbn [truthy Z.eqb negb]. mrun_setRTC;
    cbn [app]; rewrite ?app_nil_r; reflexivity.
Qed.

(** C8: with [saveDrift] set, setRTC first reads the front-panel clock,
    takes old reading - time (as [int]s) as the drift sample and hands it to
    add_drift, and only then writes [time] to the clock: the sample is
    computed from the reading of the state before the call, the globals
    after the call are those add_drift leaves for that sample, every event
    of the read comes before the events of the write, and nothing but log
    lines lies between or before them. *)
Theorem setRTC_samples_before_write (time saveDrift logMode : Z) (st : State) :
  saveDrift <> 0 ->
  let old := value (getRTC st) in
  let sample := int_sub (to_int old) (to_int time) in
  sample = to_int (old - time) /\
  (INT_MIN <= old - time <= INT_MAX -> sample = old - time) /\
  globals (after (setRTC time saveDrift logMode st)) = globals (after (add_drift sample st)) /\
  world (after (setRTC time saveDrift logMode st)) = rtc_written time (world st) /\
  exists log0 log1 : list Event,
    events (setRTC time saveDrift logMode st) =
      log0 ++ events (getRTC st) ++ log1 ++ rtc_write_events time logMode (world st) /\
    forallb is_log log0 = true /\
    forallb is_log log1 = true /\
    Forall (fun e => is_hw_write e = false) (events (getRTC st)) /\
    Forall (fun e => is_hw_read e = false) (rtc_write_events time logMode (world st)).
Proof.
  intros Hsd old sample.
  assert (Hs : sample = to_int (old - time)) by apply to_int_sub_casts.
  split; [exact Hs|]. split; [intros Hr; rewrite Hs; apply to_int_id, Hr|].
  split; [apply setRTC_globals, Hsd|]. split; [apply setRTC_world|].
  eexists. eexists. split; [apply setRTC_events, Hsd|].
  split; [destruct (truthy (verbose (globals st))); reflexivity|].
  split; [match goal with |- context [if ?c then _ else _] => destruct c end; reflexivity|].
  split; [apply getRTC_no_write|].
  unfold rtc_write_events.
  destruct (proc_present (world st)), (dev_present (world st)), (ioctl_set_ok (world st));
    repeat constructor.
Qed.

Lemma setRTC_samples_before_write_witness :
  globals (after (setRTC 1700000005 1 0 (after (fill_drift_data (boot world_behind_5))))) =
  globals (after (add_drift (-5) (after (fill_drift_data (boot world_behind_5))))) /\
  events (setRTC 1700000005 1 0 (after (fill_drift_data (boot world_behind_5)))) =
    [EvProcRead; EvProcWrite 1700000005].
Proof.
  split; [|reflexivity].
  refine (proj1 (proj2 (proj2 (setRTC_samples_before_write 1700000005 1 0
            (after (fill_drift_data (boot world_behind_5))) _)))).
  discriminate.
Defined.

(** *** write_fp *)

Lemma to_uint_id (z : Z) : 0 <= z <= 4294967295 -> to_uint z = z.
Proof. intros H. unfold to_uint. apply Z.mod_small. lia. Qed.

(** C10: for a forced epoch c (c <> -1), write_fp rejects every c below
    1672527600: it logs "Write Error epoch:%d to low.", returns 1 and
    leaves the state, front-panel clock included, as it was, with nothing
    but log lines among its events.  For c at or above that floor it
    returns 0 and calls setRTC without drift sampling: the globals, drift
    window included, are unchanged, the clock is not read, and c is what is
    written to the pseudo-file, or handed to the ioctl when the pseudo-file
    is absent. *)
Theorem write_fp_forced_epoch (c : Z) (st : State) :
  c <> -1 -> INT_MIN <= c <= INT_MAX ->
  (c < 1672527600 ->
     value (write_fp c st) = 1 /\
     after (write_fp c st) = st /\
     In (EvLog 1 "Write Error epoch:%d to low." [AInt c]) (events (write_fp c st)) /\
     forallb is_log (events (write_fp c st)) = true) /\
  (1672527600 <= c ->
     value (write_fp c st) = 0 /\
     globals (after (write_fp c st)) = globals st /\
     world (after (write_fp c st)) = rtc_written c (world st) /\
     Forall (fun e => is_hw_read e = false) (events (write_fp c st)) /\
     (proc_present (world st) = true ->
        In (EvProcWrite c) (events (write_fp c st)) /\
        rtc (world (after (write_fp c st))) = c) /\
     (proc_present (world st) = false -> dev_present (world st) = true ->
        In (EvIoctlSet c) (events (write_fp c st)) /\
        (ioctl_set_ok (world st) = true -> rtc (world (after (write_fp c st))) = c))).
Proof.
  intros Hc Hint.
  assert (Hne : negb (c =? -1) = true).
  { destruct (Z.eqb_spec c (-1)); [contradiction|reflexivity]. }
  split.
  - intros Hlow. apply Z.ltb_lt in Hlow.
    assert (Hev : events (write_fp c st) =
                  (if truthy (verbose (globals st)) then [EvLog 1 "Write %d" [AInt c]] else [])
                  ++ [EvLog 1 "Write Error epoch:%d to low." [AInt c]]).
    { unfold write_fp. rewrite Hne, Hlow. mrun; reflexivity. }
    split; [unfold write_fp; rewrite Hne, Hlow; mrun; reflexivity|].
    split; [unfold write_fp; rewrite Hne, Hlow; mrun; reflexivity|].
    rewrite Hev. destruct (truthy (verbose (globals st))); split; cbn; auto.
  - intros Hhigh.
    assert (Hge : (c <? 1672527600) = false) by (apply Z.ltb_ge, Hhigh).
    assert (Hu : to_uint c = c) by (apply to_uint_id; unfold INT_MAX in Hint; lia).
    assert (Hev : events (write_fp c st) =
                  (if truthy (verbose (globals st)) then [EvLog 1 "Write %d" [AInt c]] else [])
                  ++ events (setRTC c 0 1 st)).
    { unfold write_fp. rewrite Hne, Hge. mrun; cbn [app]; rewrite ?app_nil_r; reflexivity. }
    assert (Haf : after (write_fp c st) = after (setRTC c 0 1 st)).
    { unfold write_fp. rewrite Hne, Hge. mrun; reflexivity. }
    assert (Hva : value (write_fp c st) = 0).
    { unfold write_fp. rewrite Hne, Hge. mrun; reflexivity. }
    rewrite Hva, Haf, Hev, setRTC_globals_unsampled, setRTC_world, setRTC_events_unsampled.
    unfold rtc_written, rtc_write_events. rewrite Hu.
    split; [reflexivity|]. split; [reflexivity|]. split; [reflexivity|]. split.
    + destruct (truthy (verbose (globals st))), (proc_present (world st)),
        (dev_present (world st)), (ioctl_set_ok (world st)); repeat constructor.
    + split.
      * intros ->. split; [|reflexivity].
        rewrite !in_app_iff. cbn [In]. find_event.
      * intros -> ->. split.
        -- rewrite !in_app_iff. cbn [In]. find_event.
        -- intros ->. reflexivity.
Qed.

Lemma write_fp_forced_epoch_witness :
  value (write_fp 1000000000 (boot example_world)) = 1 /\
  after (write_fp 1000000000 (boot example_world)) = boot example_world /\
  value (write_fp 1800000000 (boot example_world)) = 0 /\
  rtc (world (after (write_fp 1800000000 (boot example_world)))) = 1800000000.
Proof.
  assert (H1 : (1000000000 : Z) <> -1) by discriminate.
  assert (H2 : INT_MIN <= 1000000000 <= INT_MAX) by (unfold INT_MIN, INT_MAX; lia).
  assert (H3 : (1800000000 : Z) <> -1) by discriminate.
  assert (H4 : INT_MIN <= 1800000000 <= INT_MAX) by (unfold INT_MIN, INT_MAX; lia).
  destruct (write_fp_forced_epoch 1000000000 (boot example_world) H1 H2) as [Hlow _].
  destruct (write_fp_forced_epoch 1800000000 (boot example_world) H3 H4) as [_ Hhigh].
  destruct Hlow as (Hv & Ha & _); [lia|].
  destruct Hhigh as (Hv' & _ & _ & _ & Hp & _); [lia|].
  destruct Hp as [_ Hr]; [reflexivity|].
  repeat split; assumption.
Defined.

(** ** The daemon *)

Lemma quiet_ret {A : Type} (a : A) : quiet (ret a).
Proof. intros st. reflexivity. Qed.

Lemma quiet_bind {A B : Type} (m : M A) (k : A -> M B) :
  quiet m -> (forall a, quiet (k a)) -> quiet (bind m k).
Proof.
  intros Hm Hk st. rewrite bind_events, clock_calls_app, Hm, Hk. reflexivity.
Qed.

Lemma quiet_emit (e : Event) : is_clock_call e = false -> quiet (emit e).
Proof. intros H st. unfold emit, clock_calls. cbn. rewrite H. reflexivity. Qed.

Lemma quiet_LOG (print : Z) (fmt : string) (args : list LogArg) : quiet (LOG print fmt args).
Proof. apply quiet_emit. reflexivity. Qed.

Lemma quiet_get_globals : quiet get_globals.
Proof. intros st. reflexivity. Qed.

Lemma quiet_get_world : quiet get_world.
Proof. intros st. reflexivity. Qed.

Lemma quiet_upd_globals (f : Globals -> Globals) : quiet (upd_globals f).
Proof. intros st. reflexivity. Qed.

Lemma quiet_upd_world (f : World -> World) : quiet (upd_world f).
Proof. intros st. reflexivity. Qed.

Lemma quiet_when (c : bool) (m : M unit) : quiet m -> quiet (when c m).
Proof. intros H. destruct c; [exact H|apply quiet_ret]. Qed.

Create HintDb quiet.
#[local] Hint Resolve quiet_ret quiet_LOG quiet_get_globals quiet_get_world
  quiet_upd_globals quiet_upd_world : quiet.

Ltac quiet_step :=
  first
    [ solve [auto with quiet]
    | apply quiet_bind; [|intros ?]
    | apply quiet_when
    | apply quiet_emit; reflexivity
    | match goal with
      | |- quiet (if ?c then _ else _) => destruct c
      | |- quiet (match ?x with _ => _ end) => destruct x
      end ].

Ltac quiet_run := cbv zeta; repeat quiet_step.

Lemma quiet_getRTC : quiet getRTC.
Proof. intros st. apply getRTC_clock_calls. Qed.

Lemma quiet_add_drift (drift : Z) : quiet (add_drift drift).
Proof. unfold add_drift. quiet_run. Qed.

Lemma quiet_calc_drift : quiet calc_drift.
Proof. unfold calc_drift. quiet_run. Qed.

#[local] Hint Resolve quiet_getRTC quiet_add_drift quiet_calc_drift : quiet.

Lemma quiet_setRTC (time saveDrift logMode : Z) : quiet (setRTC time saveDrift logMode).
Proof. unfold setRTC. quiet_run. Qed.

#[local] Hint Resolve quiet_setRTC : quiet.

Lemma quiet_write_fp (c : Z) : quiet (write_fp c).
Proof. unfold write_fp. quiet_run. Qed.

Lemma quiet_read_conf_lines (lines : list ConfLine) (r : Z) : quiet (read_conf_lines lines r).
Proof.
  revert r. induction lines as [|l lines IH]; intros r; cbn [read_conf_lines].
  - apply quiet_ret.
  - destruct (is_comment l); [apply IH|]. quiet_run; apply IH.
Qed.

#[local] Hint Resolve quiet_write_fp quiet_read_conf_lines : quiet.

Lemma quiet_read_conf_file (reload : Z) : quiet (read_conf_file reload).
Proof. unfold read_conf_file. quiet_run. Qed.

#[local] Hint Resolve quiet_read_conf_file : quiet.

Lemma quiet_handle_signal (sig : Signal) : quiet (handle_signal sig).
Proof. unfold handle_signal. quiet_run. Qed.

#[local] Hint Resolve quiet_handle_signal : quiet.

Lemma quiet_sleep (c : Cycle) : quiet (sleep c).
Proof. unfold sleep. quiet_run. Qed.

#[local] Hint Resolve quiet_sleep : quiet.

Lemma quiet_main_loop (sched : list Cycle) : quiet (main_loop sched).
Proof.
  induction sched as [|c sched IH]; cbn [main_loop]; [apply quiet_ret|].
  quiet_run; exact IH.
Qed.

Lemma read_conf_lines_world (lines : list ConfLine) (r : Z) (st : State) :
  world (after (read_conf_lines lines r st)) = world st.
Proof.
  revert r st. induction lines as [|l lines IH]; intros r st; cbn [read_conf_lines];
    [reflexivity|].
  destruct (is_comment l); [apply IH|].
  destruct (scan_verbose l), (scan_timeout l); repeat mstep0; rewrite IH; reflexivity.
Qed.

Lemma read_conf_file_world (reload : Z) (st : State) :
  world (after (read_conf_file reload st)) = world st.
Proof.
  unfold read_conf_file. repeat mstep0.
  destruct (conf_file_name (globals st)); [|reflexivity]. repeat mstep0.
  destruct (conf_lines (world st)); repeat mstep0; [|reflexivity].
  match goal with |- context [if ?c then _ else _] => destruct c end;
    [destruct (reload =? 1)|]; repeat mstep0; apply read_conf_lines_world.
Qed.

(** The calls sync_fp makes on the system clock depend on the world only. *)
Lemma sync_delta_world (cmdline : Z) (st st' : State) :
  world st = world st' -> sync_delta cmdline st = sync_delta cmdline st'.
Proof.
  intros E. unfold sync_delta. cbv zeta.
  rewrite (getRTC_value_world st st' E), E.
  rewrite (get_drift_seconds_value_world _ st st' E). reflexivity.
Qed.

Lemma sync_fp_clock_calls_world (cmdline : Z) (st st' : State) :
  world st = world st' ->
  clock_calls (events (sync_fp cmdline st)) = clock_calls (events (sync_fp cmdline st')).
Proof.
  intros E. rewrite !sync_fp_clock_calls.
  rewrite (getRTC_value_world st st' E), (sync_delta_world cmdline st st' E), E.
  reflexivity.
Qed.

Lemma sync_fp_opens_drift_file (st : State) :
  truthy (value (getRTC st)) = true -> In EvDriftOpen (events (sync_fp 0 st)).
Proof.
  intros Hhw. rewrite sync_fp_events, Hhw. change (negb (truthy 0)) with true.
  rewrite !in_app_iff. right. left. apply get_drift_seconds_opens.
Qed.

Lemma keeps_world_ret {A : Type} (a : A) : keeps_world (ret a).
Proof. intros st. reflexivity. Qed.

Lemma keeps_world_bind {A B : Type} (m : M A) (k : A -> M B) :
  keeps_world m -> (forall a, keeps_world (k a)) -> keeps_world (bind m k).
Proof. intros Hm Hk st. rewrite bind_after, Hk, Hm. reflexivity. Qed.

Lemma keeps_world_emit (e : Event) : keeps_world (emit e).
Proof. intros st. reflexivity. Qed.

Lemma keeps_world_get_globals : keeps_world get_globals.
Proof. intros st. reflexivity. Qed.

Lemma keeps_world_get_world : keeps_world get_world.
Proof. intros st. reflexivity. Qed.

Lemma keeps_world_upd_globals (f : Globals -> Globals) : keeps_world (upd_globals f).
Proof. intros st. reflexivity. Qed.

Lemma keeps_world_read_conf_file (reload : Z) : keeps_world (read_conf_file reload).
Proof. intros st. apply read_conf_file_world. Qed.

#[local] Hint Resolve keeps_world_ret keeps_world_emit keeps_world_get_globals
  keeps_world_get_world keeps_world_upd_globals keeps_world_read_conf_file : quiet.

Ltac keeps_world_run :=
  repeat first
    [ solve [auto with quiet]
    | apply keeps_world_bind; [|intros ?]
    | match goal with
      | |- keeps_world (if ?c then _ else _) => destruct c
      | |- keeps_world (match ?x with _ => _ end) => destruct x
      end ].

Lemma syncs_once_after {A B : Type} (m : M A) (k : A -> M B) :
  quiet m -> keeps_world m -> (forall a, syncs_once (k a)) -> syncs_once (bind m k).
Proof.
  intros Hq Hw Hk st.
  destruct (Hk (value (m st)) (after (m st))) as (st1 & Hw1 & Hc & Hin).
  exists st1. split; [rewrite Hw1; apply Hw|]. split.
  - rewrite bind_events, clock_calls_app, Hq. exact Hc.
  - intros e He. rewrite bind_events. apply in_or_app. right. apply Hin, He.
Qed.

Lemma syncs_once_here {B : Type} (k : Z -> M B) :
  (forall a, quiet (k a)) -> syncs_once (bind (sync_fp 0) k).
Proof.
  intros Hk st. exists st. split; [reflexivity|]. split.
  - rewrite bind_events, clock_calls_app, Hk. apply app_nil_r.
  - intros e He. rewrite bind_events. apply in_or_app. left. exact He.
Qed.

Lemma main_daemon_syncs_once (sched : list Cycle) : syncs_once (main_daemon sched).
Proof.
  unfold main_daemon.
  apply syncs_once_after; [quiet_run|keeps_world_run|intros ?].
  apply syncs_once_after; [quiet_run|keeps_world_run|intros g].
  apply syncs_once_after; [quiet_run|unfold LOG, fill_drift_data; keeps_world_run|intros ?].
  apply syncs_once_after; [quiet_run|keeps_world_run|intros ?].
  apply syncs_once_after; [quiet_run|keeps_world_run|intros ?].
  apply syncs_once_after; [unfold fill_drift_data; quiet_run|unfold fill_drift_data; keeps_world_run|intros ?].
  apply syncs_once_after; [quiet_run|unfold LOG; keeps_world_run|intros ?].
  apply syncs_once_here. intros ?.
  apply quiet_bind; [apply quiet_main_loop|intros ?]. quiet_run.
Qed.

Lemma getRTC_no_drift_open (st : State) : ~ In EvDriftOpen (events (getRTC st)).
Proof.
  unfold getRTC. mrun0; cbn [In app]; intros H;
    repeat (destruct H as [H|H]; [discriminate H|]); exact H.
Qed.

Lemma sync_fp_cmdline_raw (st : State) : ~ In EvDriftOpen (events (sync_fp 1 st)).
Proof.
  rewrite sync_fp_events. change (negb (truthy 1)) with false. cbv zeta. cbn [app].
  intros H. apply in_app_or in H as [H|H]; [exact (getRTC_no_drift_open st H)|].
  destruct (truthy (value (getRTC st))).
  - destruct (abs (sync_delta 1 st) >? 30); [|destruct H].
    destruct H as [H|H]; [discriminate H|].
    destruct (adjtime_errno (world st) (sync_delta 1 st)) as [e|];
      [destruct (e =? EINVAL)|];
      repeat (destruct H as [H|H]; [discriminate H|]); exact H.
  - destruct H as [H|H]; [discriminate H|exact H].
Qed.

(** C6 (as amended): the synchronisation at the start of the daemon's loop
    is sync_fp(0), which applies the extrapolation: with a nonzero reading
    hw, the drift file is opened, get_drift_seconds(hw) is added to hw, and
    it is this sum that is compared to the system clock; beyond 30 seconds
    the slew requested is that difference, within 30 seconds the daemon
    never touches the system clock.  Only sync_fp(1), the restore asked for
    on the command line, leaves the drift file alone and compares the raw
    reading. *)
Theorem main_daemon_first_sync_extrapolates (sched : list Cycle) (st : State) (hw drift : Z) :
  value (getRTC st) = hw -> hw <> 0 ->
  value (get_drift_seconds (to_int hw) st) = drift ->
  let delta := int_sub (to_int (hw + drift)) (to_int (sys_clock (world st))) in
  In EvDriftOpen (events (main_daemon sched st)) /\
  clock_calls (events (main_daemon sched st)) = clock_calls (events (sync_fp 0 st)) /\
  ((abs delta >? 30) = true ->
     exists rest : list Event,
       clock_calls (events (main_daemon sched st)) = EvAdjtime delta :: rest) /\
  ((abs delta >? 30) = false -> clock_calls (events (main_daemon sched st)) = []) /\
  ~ In EvDriftOpen (events (sync_fp 1 st)) /\
  sync_delta 1 st = int_sub (to_int hw) (to_int (sys_clock (world st))).
Proof.
  intros Hhw Hnz Hdrift delta.
  destruct (main_daemon_syncs_once sched st) as (st1 & Hw & Hc & Hin).
  assert (Ht : truthy (value (getRTC st)) = true) by (rewrite Hhw; apply truthy_nonzero, Hnz).
  assert (Ht1 : truthy (value (getRTC st1)) = true).
  { rewrite (getRTC_value_world st1 st Hw). exact Ht. }
  assert (Hcalls : clock_calls (events (main_daemon sched st)) = clock_calls (events (sync_fp 0 st))).
  { rewrite Hc. apply sync_fp_clock_calls_world, Hw. }
  assert (Hd : sync_delta 0 st = delta).
  { unfold sync_delta. cbv zeta. cbn [negb truthy Z.eqb]. rewrite Hhw, Hdrift. reflexivity. }
  split; [apply Hin, sync_fp_opens_drift_file, Ht1|].
  split; [exact Hcalls|]. split; [|split; [|split]].
  - intros Habs. rewrite Hcalls, sync_fp_clock_calls, Ht. cbv zeta. rewrite Hd, Habs.
    destruct (adjtime_errno (world st) delta) as [e|]; [destruct (e =? EINVAL)|]; eexists; reflexivity.
  - intros Habs. rewrite Hcalls, sync_fp_clock_calls, Ht. cbv zeta. rewrite Hd, Habs. reflexivity.
  - apply sync_fp_cmdline_raw.
  - unfold sync_delta. cbv zeta. cbn [negb truthy Z.eqb]. rewrite Hhw. reflexivity.
Qed.

Lemma main_daemon_first_sync_extrapolates_witness :
  In EvDriftOpen (events (main_daemon [] (boot world_drifted))) /\
  exists rest : list Event,
    clock_calls (events (main_daemon [] (boot world_drifted))) = EvAdjtime 100 :: rest.
Proof.
  destruct (main_daemon_first_sync_extrapolates [] (boot world_drifted) 1700010000 100)
    as (Hopen & _ & Hslew & _).
  - reflexivity.
  - discriminate.
  - vm_compute. reflexivity.
  - split; [exact Hopen|]. apply Hslew. vm_compute. reflexivity.
Defined.

(** C6 (as stated) fails: started as a daemon in a world where the reading
    of the front-panel clock equals the system clock, main still asks for a
    slew, of the 100 seconds that the drift record extrapolates to. *)
Lemma startup_sync_not_raw : ~ startup_sync_raw world_drifted.
Proof.
  intros H. specialize (H 1700010000).
  assert (Hcalls : clock_calls (events (main 2 [Opt_d] [] (boot world_drifted))) = [EvAdjtime 100])
    by (vm_compute; reflexivity).
  rewrite Hcalls in H. 
  assert (Hnil : [EvAdjtime 100] = []).
  { apply H; [vm_compute; reflexivity|discriminate|vm_compute; discriminate]. }
  discriminate Hnil.
Qed.

(** How the window of C3 comes about: a daemon whose front-panel clock
    cannot be read records minus the system time as its sample at every
    turn; stopped after six turns, it saves a positive rate, the wrapped sum
    of the two middle samples -1700001800 and -1700000000 halved and divided
    by 1800, although every sample in the window is negative. *)
Example daemon_without_clock_saves_wrapped_rate :
  drift_data (globals (after (main 2 [Opt_d] six_turns (boot world_no_clock)))) =
    [-1700009000; -1700007200; -1700005400; -1700003600; -1700001800; -1700000000;
     -1; -1; -1; -1] /\
  In (EvDriftWrite 1700010800 (ddiv (double_of_int 447482748) (double_of_int 1800)))
     (events (main 2 [Opt_d] six_turns (boot world_no_clock))).
Proof. split; [vm_compute; reflexivity|]. vm_compute. find_event. Qed.

(** ** More on the hardware clock accessor *)

Lemma is_hw_write_not_In (e : Event) (evs : list Event) :
  Forall (fun e' => is_hw_write e' = false) evs -> is_hw_write e = true -> ~ In e evs.
Proof.
  intros Hall He Hin. rewrite Forall_forall in Hall.
  apply list_elem_of_In in Hin. rewrite (Hall e Hin) in He. discriminate He.
Qed.

Lemma getRTC_events (st : State) :
  events (getRTC st) =
    if proc_present (world st) then
      EvProcRead ::
        (if proc_scan_ok (world st) then []
         else [EvLog 0 "Read %s failed: %m" [AStr proc_file]])
    else
      (if truthy (verbose (globals st)) then [EvLog 0 "%s not exists" [AStr proc_file]] else [])
      ++ (if dev_present (world st) then
            EvIoctlGet ::
              (if ioctl_get_ok (world st) then []
               else [EvLog 0 "FP_IOCTL_GET_RTC failed: %m" []])
          else if truthy (verbose (globals st))
               then [EvLog 0 "%s not exists" [AStr dev_file]] else []).
Proof. unfold getRTC. mrun0; try congruence; reflexivity. Qed.

(** X1: getRTC turns to the device node only when the pseudo-file cannot be
    opened.  With the pseudo-file present it is read and no ioctl is made,
    and a content that does not scan gives 0; with the pseudo-file absent
    and the device node present the ioctl is made and the pseudo-file is
    not read.  In every case the state is left as it was and nothing is
    written to the clock. *)
Theorem getRTC_backend_choice (st : State) :
  after (getRTC st) = st /\
  Forall (fun e => is_hw_write e = false) (events (getRTC st)) /\
  (proc_present (world st) = true ->
     In EvProcRead (events (getRTC st)) /\ ~ In EvIoctlGet (events (getRTC st))) /\
  (proc_present (world st) = true -> proc_scan_ok (world st) = false ->
     value (getRTC st) = 0) /\
  (proc_present (world st) = false -> dev_present (world st) = true ->
     In EvIoctlGet (events (getRTC st)) /\ ~ In EvProcRead (events (getRTC st))).
Proof.
  split; [apply getRTC_after|]. split; [apply getRTC_no_write|].
  rewrite getRTC_events, getRTC_value. split; [|split].
  - intros ->. split; [left; reflexivity|].
    destruct (proc_scan_ok (world st)); cbn [In]; intros H;
      repeat (destruct H as [H|H]; [discriminate H|]); exact H.
  - intros -> ->. reflexivity.
  - intros -> ->. split.
    + apply in_or_app. right. left. reflexivity.
    + destruct (truthy (verbose (globals st))), (ioctl_get_ok (world st)); cbn [In app];
        intros H; repeat (destruct H as [H|H]; [discriminate H|]); exact H.
Qed.

Lemma getRTC_backend_choice_witness :
  events (getRTC (boot world_unreadable)) =
    [EvProcRead; EvLog 0 "Read %s failed: %m" [AStr proc_file]] /\
  value (getRTC (boot world_unreadable)) = 0.
Proof.
  split; [reflexivity|].
  destruct (getRTC_backend_choice (boot world_unreadable)) as (_ & _ & _ & H & _).
  apply H; reflexivity.
Defined.

(** X2: getRTC returns 0 exactly when the read fails, when the build has
    HAVE_NO_RTC and the pseudo-file is used, or when the register itself
    reads 0; a value that comes through the pseudo-file lies in the range of
    an unsigned int. *)
Theorem getRTC_zero_iff (st : State) :
  (value (getRTC st) = 0 <->
     rtc_read_failed (world st) \/
     (proc_present (world st) = true /\ proc_scan_ok (world st) = true /\
      (HAVE_NO_RTC (target (world st)) = true \/ to_uint (rtc (world st)) = 0)) \/
     (proc_present (world st) = false /\ dev_present (world st) = true /\
      ioctl_get_ok (world st) = true /\ rtc (world st) = 0)) /\
  (proc_present (world st) = true -> 0 <= value (getRTC st) < 4294967296).
Proof.
  rewrite getRTC_value. unfold rtc_read_failed. split.
  - destruct (proc_present (world st)), (proc_scan_ok (world st)),
      (dev_present (world st)), (ioctl_get_ok (world st)),
      (HAVE_NO_RTC (target (world st))); intuition congruence.
  - intros ->. pose proof (Z.mod_pos_bound (rtc (world st)) 4294967296 ltac:(lia)) as Hb.
    unfold to_uint.
    destruct (proc_scan_ok (world st)), (HAVE_NO_RTC (target (world st))); lia.
Qed.

Lemma getRTC_zero_iff_witness : 0 <= value (getRTC (boot example_world)) < 4294967296.
Proof.
  refine (proj2 (getRTC_zero_iff (boot example_world)) _). reflexivity.
Defined.

Lemma rtc_written_flags (time : Z) (w : World) :
  target (rtc_written time w) = target w /\
  proc_present (rtc_written time w) = proc_present w /\
  proc_scan_ok (rtc_written time w) = proc_scan_ok w /\
  dev_present (rtc_written time w) = dev_present w /\
  ioctl_get_ok (rtc_written time w) = ioctl_get_ok w /\
  ioctl_set_ok (rtc_written time w) = ioctl_set_ok w /\
  sys_clock (rtc_written time w) = sys_clock w /\
  slew (rtc_written time w) = slew w.
Proof.
  unfold rtc_written.
  destruct (proc_present w) eqn:Hp, (dev_present w) eqn:Hd, (ioctl_set_ok w) eqn:Hi;
    cbn [andb set_rtc target proc_present proc_scan_ok dev_present ioctl_get_ok ioctl_set_ok
         sys_clock slew];
    rewrite ?Hp, ?Hd, ?Hi; repeat split; reflexivity.
Qed.

Lemma to_uint_idem (z : Z) : to_uint (to_uint z) = to_uint z.
Proof. unfold to_uint. apply Z.mod_mod. lia. Qed.

(** X3: what setRTC writes is what getRTC reads back.  Through a working
    pseudo-file the reading after setRTC(time, ...) is (unsigned int)time;
    through a working device node, with the pseudo-file absent, it is time
    itself. *)
Theorem setRTC_then_getRTC (time saveDrift logMode : Z) (st : State) :
  (proc_present (world st) = true -> proc_scan_ok (world st) = true ->
   HAVE_NO_RTC (target (world st)) = false ->
     value (getRTC (after (setRTC time saveDrift logMode st))) = to_uint time) /\
  (proc_present (world st) = false -> dev_present (world st) = true ->
   ioctl_set_ok (world st) = true -> ioctl_get_ok (world st) = true ->
     value (getRTC (after (setRTC time saveDrift logMode st))) = time).
Proof.
  rewrite getRTC_value, setRTC_world.
  destruct (rtc_written_flags time (world st)) as (-> & -> & -> & -> & -> & _).
  unfold rtc_written. split.
  - intros -> -> ->. cbn [rtc set_rtc]. apply to_uint_idem.
  - intros -> -> -> ->. reflexivity.
Qed.

Lemma setRTC_then_getRTC_witness :
  value (getRTC (after (setRTC 1800000000 1 0 (boot example_world)))) = 1800000000 /\
  value (getRTC (after (setRTC 1800000000 0 1 (boot world_ioctl)))) = 1800000000.
Proof.
  split.
  - refine (proj1 (setRTC_then_getRTC 1800000000 1 0 (boot example_world)) _ _ _); reflexivity.
  - refine (proj2 (setRTC_then_getRTC 1800000000 0 1 (boot world_ioctl)) _ _ _ _); reflexivity.
Defined.

Lemma outcome_ext {A : Type} (r1 r2 : Outcome A) :
  value r1 = value r2 -> after r1 = after r2 -> events r1 = events r2 -> r1 = r2.
Proof. destruct r1, r2. cbn. intros -> -> ->. reflexivity. Qed.

Lemma hw_writes_none (evs : list Event) :
  Forall (fun e => is_hw_write e = false) evs -> List.filter is_hw_write evs = [].
Proof.
  induction evs as [|e evs IH]; intros H; [reflexivity|].
  apply Forall_cons in H as [He Hl]. cbn. rewrite He. apply IH, Hl.
Qed.

(** The writes to the front-panel clock among the events of setRTC are those
    of its last block. *)
Lemma setRTC_hw_writes (time saveDrift logMode : Z) (st : State) :
  List.filter is_hw_write (events (setRTC time saveDrift logMode st)) =
  List.filter is_hw_write (rtc_write_events time logMode (world st)).
Proof.
  destruct (Z.eq_dec saveDrift 0) as [->|Hsd].
  - rewrite setRTC_events_unsampled, List.filter_app.
    destruct (truthy (verbose (globals st))); reflexivity.
  - rewrite (setRTC_events time saveDrift logMode st Hsd). cbv zeta.
    rewrite !List.filter_app, (hw_writes_none _ (getRTC_no_write st)).
    destruct (truthy (verbose (globals st)));
      match goal with |- context [negb ?c] => destruct (negb c) end; reflexivity.
Qed.

(** X4: the write of setRTC.  setRTC never calls adjtime or settimeofday and
    leaves the system clock alone.  With the pseudo-file present the device
    node is not used, whatever the value.  With neither the pseudo-file nor
    the device node present the world is left as it was and no write is
    made; for a write without drift sampling and without verbosity the call
    then has no effect and no event at all: the failure is not reported. *)
Theorem setRTC_write_path (time saveDrift logMode : Z) (st : State) :
  clock_calls (events (setRTC time saveDrift logMode st)) = [] /\
  sys_clock (world (after (setRTC time saveDrift logMode st))) = sys_clock (world st) /\
  slew (world (after (setRTC time saveDrift logMode st))) = slew (world st) /\
  (proc_present (world st) = true ->
     forall v : Z, ~ In (EvIoctlSet v) (events (setRTC time saveDrift logMode st))) /\
  (proc_present (world st) = false -> dev_present (world st) = false ->
     world (after (setRTC time saveDrift logMode st)) = world st /\
     List.filter is_hw_write (events (setRTC time saveDrift logMode st)) = [] /\
     (saveDrift = 0 -> truthy (verbose (globals st)) = false ->
        setRTC time saveDrift logMode st = mkOutcome tt st [])).
Proof.
  split; [apply quiet_setRTC|].
  rewrite setRTC_world.
  destruct (rtc_written_flags time (world st)) as (_ & _ & _ & _ & _ & _ & -> & ->).
  split; [reflexivity|]. split; [reflexivity|]. split.
  - intros Hp v Hin.
    assert (Hf : In (EvIoctlSet v)
                   (List.filter is_hw_write (events (setRTC time saveDrift logMode st)))).
    { apply List.filter_In. split; [exact Hin|reflexivity]. }
    rewrite setRTC_hw_writes in Hf. unfold rtc_write_events in Hf. rewrite Hp in Hf.
    cbn in Hf. destruct Hf as [Hf|Hf]; [discriminate Hf|exact Hf].
  - intros Hp Hd.
    assert (Hw : rtc_written time (world st) = world st).
    { unfold rtc_written. rewrite Hp, Hd. reflexivity. }
    split; [exact Hw|]. split.
    + rewrite setRTC_hw_writes. unfold rtc_write_events. rewrite Hp, Hd. reflexivity.
    + intros -> Hv. apply outcome_ext.
      * destruct (value (setRTC time 0 logMode st)). reflexivity.
      * apply state_ext; [apply setRTC_globals_unsampled|].
        rewrite setRTC_world. exact Hw.
      * rewrite setRTC_events_unsampled, Hv. unfold rtc_write_events.
        rewrite Hp, Hd. reflexivity.
Qed.

Lemma setRTC_write_path_witness :
  setRTC 1800000000 0 1 (boot world_no_clock) = mkOutcome tt (boot world_no_clock) [].
Proof.
  destruct (setRTC_write_path 1800000000 0 1 (boot world_no_clock)) as (_ & _ & _ & _ & H).
  destruct H as (_ & _ & H); [reflexivity|reflexivity|].
  apply H; reflexivity.
Defined.

(** *** More on write_fp and print_fp *)

Lemma write_fp_value (c : Z) (st : State) :
  value (write_fp c st) = if negb (c =? -1) && (c <? 1672527600) then 1 else 0.
Proof.
  unfold write_fp.
  destruct (negb (c =? -1)); [destruct (c <? 1672527600) eqn:Hlow|]; repeat mstep;
    rewrite ?Hlow; reflexivity.
Qed.

(** X5: write_fp returns 1 exactly for a forced epoch below 1672527600,
    and 0 in every other case: for the periodic write (c = -1) and for a
    forced epoch at or above the floor, whatever becomes of the write to
    the clock. *)
Theorem write_fp_result (c : Z) (st : State) :
  (value (write_fp c st) = 1 <-> c <> -1 /\ c < 1672527600) /\
  (value (write_fp c st) = 0 <-> c = -1 \/ 1672527600 <= c).
Proof.
  rewrite write_fp_value.
  destruct (Z.eqb_spec c (-1)), (Z.ltb_spec c 1672527600); cbn [negb andb];
    split; split; intros Hc; try discriminate Hc; try reflexivity; lia.
Qed.

Lemma write_fp_periodic (st : State) :
  after (write_fp (-1) st) = after (setRTC (sys_clock (world st)) 1 0 st) /\
  events (write_fp (-1) st) = events (setRTC (sys_clock (world st)) 1 0 st).
Proof.
  unfold write_fp. cbn [Z.eqb negb Pos.eqb]. repeat mstep.
  rewrite app_nil_r. split; reflexivity.
Qed.

Lemma to_int_uint_diff (z : Z) : int_sub (to_int (to_uint z)) (to_int z) = 0.
Proof.
  rewrite to_int_sub_casts. unfold to_int, to_uint.
  pose proof (Z.div_mod z 4294967296 ltac:(lia)) as Hz.
  replace (z mod 4294967296 - z + 2147483648)
    with (2147483648 + (- (z / 4294967296)) * 4294967296) by lia.
  rewrite Z.mod_add by lia. reflexivity.
Qed.

(** X6: with a working clock, a periodic write that follows another with
    no time in between finds no drift: it reads back what was written,
    records no sample, and leaves globals and world as the first write left
    them. *)
Theorem write_fp_twice (st : State) :
  clock_works (world st) ->
  let st1 := after (write_fp (-1) st) in
  rtc (world st1) = value (getRTC st1) /\
  int_sub (to_int (value (getRTC st1))) (to_int (sys_clock (world st1))) = 0 /\
  globals (after (write_fp (-1) st1)) = globals st1 /\
  world (after (write_fp (-1) st1)) = world st1.
Proof.
  intros Hw st1.
  assert (Hst1 : world st1 = rtc_written (sys_clock (world st)) (world st)).
  { unfold st1. rewrite (proj1 (write_fp_periodic st)). apply setRTC_world. }
  assert (Hsys : sys_clock (world st1) = sys_clock (world st)).
  { rewrite Hst1. apply rtc_written_flags. }
  destruct (rtc_written_flags (sys_clock (world st)) (world st))
    as (Ht & Hp & Hs & Hd & Hg & Hi & _ & _).
  rewrite <- Hst1 in Ht, Hp, Hs, Hd, Hg, Hi.
  assert (Hread : value (getRTC st1) = rtc (world st1) /\
                  (rtc (world st1) = to_uint (sys_clock (world st)) \/
                   rtc (world st1) = sys_clock (world st))).
  { rewrite getRTC_value, Ht, Hp, Hs, Hd, Hg, Hst1. unfold rtc_written.
    destruct Hw as [(-> & -> & ->)|(-> & -> & -> & ->)]; cbn [andb rtc set_rtc].
    - split; [apply to_uint_idem|left; reflexivity].
    - split; [reflexivity|right; reflexivity]. }
  destruct Hread as [Hval Hrtc].
  assert (Hzero : int_sub (to_int (value (getRTC st1))) (to_int (sys_clock (world st1))) = 0).
  { rewrite Hval, Hsys. destruct Hrtc as [-> | ->].
    - apply to_int_uint_diff.
    - rewrite to_int_sub_casts, Z.sub_diag. reflexivity. }
  split; [symmetry; exact Hval|]. split; [exact Hzero|].
  rewrite (proj1 (write_fp_periodic st1)). split.
  - rewrite setRTC_globals by discriminate. rewrite Hzero. reflexivity.
  - rewrite setRTC_world, Hsys, Hst1. unfold rtc_written.
    destruct Hw as [(Hp' & _ & _)|(Hp' & Hd' & Hi' & _)].
    + rewrite Hp'. cbn [proc_present set_rtc]. rewrite Hp'. reflexivity.
    + rewrite Hp', Hd', Hi'. cbn [andb proc_present dev_present ioctl_set_ok set_rtc].
      rewrite Hp', Hd', Hi'. reflexivity.
Qed.

Lemma write_fp_twice_witness :
  globals (after (write_fp (-1) (after (write_fp (-1) (boot world_behind_5))))) =
  globals (after (write_fp (-1) (boot world_behind_5))).
Proof.
  refine (proj1 (proj2 (proj2 (write_fp_twice (boot world_behind_5) _)))).
  left. repeat split; reflexivity.
Defined.

(** X7: print_fp changes nothing and returns 0 in every case; it prints
    "Read RTC failed" when getRTC gave 0 and the time read otherwise, after
    the events of the read. *)
Theorem print_fp_reports (st : State) :
  value (print_fp st) = 0 /\
  after (print_fp st) = st /\
  (value (getRTC st) = 0 ->
     events (print_fp st) = events (getRTC st) ++ [EvLog 1 "Read RTC failed" []]) /\
  (value (getRTC st) <> 0 ->
     events (print_fp st) =
       events (getRTC st) ++ [EvLog 1 "Read result:%s" [ACtime (value (getRTC st))]]).
Proof.
  split; [reflexivity|]. split; [|split].
  - unfold print_fp. mrun; reflexivity.
  - intros H0. unfold print_fp. repeat mstep. rewrite H0. cbn [truthy Z.eqb negb].
    repeat mstep. rewrite app_nil_r. reflexivity.
  - intros Hnz. unfold print_fp. repeat mstep. rewrite (truthy_nonzero _ Hnz).
    repeat mstep. rewrite app_nil_r. reflexivity.
Qed.

Lemma print_fp_reports_witness :
  events (print_fp (boot world_no_clock)) = [EvLog 1 "Read RTC failed" []].
Proof.
  refine (proj1 (proj2 (proj2 (print_fp_reports (boot world_no_clock)))) _). reflexivity.
Defined.

(** ** More on the drift estimator *)

Lemma to_int_high (z : Z) : INT_MAX < z <= INT_MAX + 4294967296 -> to_int z = z - 4294967296.
Proof.
  unfold to_int, INT_MAX. intros H.
  replace (z + 2147483648) with ((z - 2147483648) + 1 * 4294967296) by lia.
  rewrite Z.mod_add, Z.mod_small by lia. lia.
Qed.

Lemma to_int_low (z : Z) : INT_MIN - 4294967296 <= z < INT_MIN -> to_int z = z + 4294967296.
Proof.
  unfold to_int, INT_MIN. intros H.
  replace (z + 2147483648) with ((z + 6442450944) + (-1) * 4294967296) by lia.
  rewrite Z.mod_add, Z.mod_small by lia. lia.
Qed.

(** X8: cmpfunc orders two ints correctly exactly as far as their
    difference fits an int: then its sign is that of the comparison.  When
    a - b exceeds INT_MAX the result is negative, as if a were the smaller,
    and when a - b is below INT_MIN it is positive. *)
Theorem cmpfunc_sign (a b : Z) :
  INT_MIN <= a <= INT_MAX -> INT_MIN <= b <= INT_MAX ->
  (INT_MIN <= a - b <= INT_MAX ->
     (cmpfunc a b < 0 <-> a < b) /\ (cmpfunc a b = 0 <-> a = b) /\ (0 < cmpfunc a b <-> b < a)) /\
  (INT_MAX < a - b -> cmpfunc a b < 0) /\
  (a - b < INT_MIN -> 0 < cmpfunc a b).
Proof.
  intros Ha Hb. unfold cmpfunc, int_sub. split; [|split].
  - intros Hd. rewrite to_int_id by exact Hd. lia.
  - intros Hd. rewrite to_int_high by (unfold INT_MIN, INT_MAX in *; lia).
    unfold INT_MIN, INT_MAX in *. lia.
  - intros Hd. rewrite to_int_low by (unfold INT_MIN, INT_MAX in *; lia).
    unfold INT_MIN, INT_MAX in *. lia.
Qed.

Lemma cmpfunc_sign_witness : cmpfunc 1700000000 (-1700000000) < 0.
Proof.
  refine (proj1 (proj2 (cmpfunc_sign 1700000000 (-1700000000) _ _)) _);
    unfold INT_MIN, INT_MAX; lia.
Defined.

Lemma calc_drift_after (st : State) :
  after (calc_drift st) =
    mkState (set_drift_data (qsort (drift_data (globals st)) cmpfunc) (globals st)) (world st).
Proof. reflexivity. Qed.



Lemma merge_sort_perm_eq (l l' : list Z) : l ≡ₚ l' -> merge_sort Z.le l = merge_sort Z.le l'.
Proof.
  intros Hp. apply (Sorted_unique Z.le).
  - apply Sorted_merge_sort. apply _.
  - apply Sorted_merge_sort. apply _.
  - rewrite !merge_sort_Permutation. exact Hp.
Qed.



(** X11: add_drift keeps the write index within the array.  From any state
    whose index lies in 0..9, whatever the sample, the index after the call
    lies in 0..9 again, the array has the length it had, every slot but the
    one at the old index holds what it held, and nothing but the window and
    its index has changed; a nonzero sample is in the slot of the old
    index. *)
Theorem add_drift_in_bounds (x : Z) (st : State) :
  0 <= drift_index (globals st) <= 9 ->
  let st' := after (add_drift x st) in
  0 <= drift_index (globals st') <= 9 /\
  length (drift_data (globals st')) = length (drift_data (globals st)) /\
  (forall i : nat, i <> Z.to_nat (drift_index (globals st)) ->
     drift_data (globals st') !! i = drift_data (globals st) !! i) /\
  (x <> 0 -> (Z.to_nat (drift_index (globals st)) < length (drift_data (globals st)))%nat ->
     drift_data (globals st') !! Z.to_nat (drift_index (globals st)) = Some x) /\
  set_drift_index (drift_index (globals st))
    (set_drift_data (drift_data (globals st)) (globals st')) = globals st /\
  world st' = world st /\
  events (add_drift x st) = [].
Proof.
  intros Hi st'. unfold st'.
  split; [|split; [|split; [|split; [|split; [|split]]]]];
    try (rewrite ?add_drift_world, ?add_drift_events; reflexivity).
  - destruct (Z.eq_dec x 0) as [->|Hx]; [rewrite add_drift_zero; exact Hi|].
    rewrite add_drift_nonzero by assumption. cbn [globals drift_index set_drift_index].
    destruct (Z.gtb_spec (drift_index (globals st) + 1) 9); lia.
  - destruct (Z.eq_dec x 0) as [->|Hx]; [rewrite add_drift_zero; reflexivity|].
    rewrite add_drift_nonzero by assumption.
    cbn [globals drift_data set_drift_index set_drift_data]. apply length_insert.
  - intros i Hne.
    destruct (Z.eq_dec x 0) as [->|Hx]; [rewrite add_drift_zero; reflexivity|].
    rewrite add_drift_nonzero by assumption.
    cbn [globals drift_data set_drift_index set_drift_data].
    apply list_lookup_insert_ne. congruence.
  - intros Hx Hlen. rewrite add_drift_nonzero by assumption.
    cbn [globals drift_data set_drift_index set_drift_data].
    apply list_lookup_insert_eq. exact Hlen.
  - destruct (Z.eq_dec x 0) as [->|Hx];
      [rewrite add_drift_zero; cbn [after]; destruct (globals st); reflexivity|].
    rewrite add_drift_nonzero by assumption. cbn [globals].
    destruct (globals st); reflexivity.
Qed.

Lemma add_drift_in_bounds_witness :
  drift_index (globals (after (add_drift 7
     (after (for_each add_drift [5; -3; 8; 1; 9; -2; 4; 7; 6]
               (after (fill_drift_data (boot example_world)))))))) = 0 /\
  0 <= drift_index (globals (after (add_drift 7
     (after (for_each add_drift [5; -3; 8; 1; 9; -2; 4; 7; 6]
               (after (fill_drift_data (boot example_world)))))))) <= 9.
Proof.
  split; [reflexivity|].
  refine (proj1 (add_drift_in_bounds 7
            (after (for_each add_drift [5; -3; 8; 1; 9; -2; 4; 7; 6]
                      (after (fill_drift_data (boot example_world))))) _)).
  vm_compute. split; discriminate.
Defined.

(** ** More on the synchroniser *)

Lemma get_drift_seconds_no_write (r : Z) (st : State) :
  List.filter is_hw_write (events (get_drift_seconds r st)) = [].
Proof.
  destruct (get_drift_seconds_events r st) as (logs & -> & Hl). cbn.
  induction logs as [|e logs IH]; [reflexivity|].
  cbn [forallb] in Hl. apply andb_prop in Hl as [He Hl].
  destruct e; try discriminate He. cbn. apply IH, Hl.
Qed.

(** X12: sync_fp only reads the front-panel clock.  It makes no write to
    the pseudo-file and no set ioctl, leaves the register as it was, and
    changes none of the globals, drift window included. *)
Theorem sync_fp_reads_only (cmdline : Z) (st : State) :
  List.filter is_hw_write (events (sync_fp cmdline st)) = [] /\
  rtc (world (after (sync_fp cmdline st))) = rtc (world st) /\
  globals (after (sync_fp cmdline st)) = globals st.
Proof.
  split; [|split; [|apply sync_fp_globals]].
  - rewrite sync_fp_events, List.filter_app, (hw_writes_none _ (getRTC_no_write st)).
    cbv zeta. cbn [app].
    destruct (truthy (value (getRTC st))); [|reflexivity].
    rewrite List.filter_app.
    assert (Hd : List.filter is_hw_write
                   (if negb (truthy cmdline)
                    then events (get_drift_seconds (to_int (value (getRTC st))) st)
                    else []) = []).
    { destruct (negb (truthy cmdline)); [apply get_drift_seconds_no_write|reflexivity]. }
    rewrite Hd. cbn [app].
    destruct (abs (sync_delta cmdline st) >? 30); [|reflexivity].
    destruct (adjtime_errno (world st) (sync_delta cmdline st)) as [e|];
      [destruct (e =? EINVAL)|]; reflexivity.
  - rewrite sync_fp_world. cbv zeta.
    destruct (truthy (value (getRTC st))); [|reflexivity].
    destruct (abs (sync_delta cmdline st) >? 30); [|reflexivity].
    destruct (adjtime_errno (world st) (sync_delta cmdline st)) as [e|];
      [destruct (e =? EINVAL)|]; reflexivity.
Qed.

Lemma to_int_period (k d : Z) : to_int (4294967296 * k + d) = to_int d.
Proof.
  unfold to_int. f_equal.
  replace (4294967296 * k + d + 2147483648) with (d + 2147483648 + k * 4294967296) by lia.
  apply Z.mod_add. lia.
Qed.

(** X13: sync_fp decides on the difference reduced to an int.  If the
    reading plus drift minus the system time is d plus a multiple of 2^32,
    then with |d| <= 30 nothing is done to the system clock, with d beyond
    the band (and within int) the slew requested is d, and with d = INT_MIN,
    whose absolute value abs() returns as INT_MIN, nothing is done
    either. *)
Theorem sync_fp_difference_wraps (cmdline : Z) (st : State) (hw drift k d : Z) :
  value (getRTC st) = hw -> hw <> 0 ->
  drift = (if negb (truthy cmdline) then value (get_drift_seconds (to_int hw) st) else 0) ->
  hw + drift - sys_clock (world st) = 4294967296 * k + d ->
  (Z.abs d <= 30 -> no_op (sync_fp cmdline st) st) /\
  (d = INT_MIN -> no_op (sync_fp cmdline st) st) /\
  (30 < Z.abs d <= INT_MAX -> slews_by d (sync_fp cmdline st) st).
Proof.
  intros Hhw Hnz Hdrift Hdelta.
  assert (Ht : truthy (value (getRTC st)) = true) by (rewrite Hhw; apply truthy_nonzero, Hnz).
  assert (Hd : sync_delta cmdline st = to_int d).
  { rewrite sync_delta_exact, Hhw, <- Hdrift, Hdelta. apply to_int_period. }
  split; [|split].
  - intros Hb. apply sync_fp_within_band; [exact Ht|].
    rewrite Hd, to_int_id by (unfold INT_MIN, INT_MAX; lia).
    rewrite abs_small by (unfold INT_MIN, INT_MAX; lia).
    destruct (Z.gtb_spec (Z.abs d) 30); [lia|reflexivity].
  - intros ->. apply sync_fp_within_band; [exact Ht|]. rewrite Hd. reflexivity.
  - intros Hb.
    assert (Hid : to_int d = d) by (apply to_int_id; unfold INT_MIN, INT_MAX in *; lia).
    rewrite <- Hid, <- Hd. apply sync_fp_beyond_band; [exact Ht|].
    rewrite Hd, Hid, abs_small by (unfold INT_MIN, INT_MAX in *; lia).
    apply Z.gtb_lt. lia.
Qed.

Lemma sync_fp_difference_wraps_witness :
  value (getRTC (boot world_far_ahead)) - sys_clock world_far_ahead = 2147483648 /\
  no_op (sync_fp 1 (boot world_far_ahead)) (boot world_far_ahead).
Proof.
  split; [reflexivity|].
  refine (proj1 (proj2 (sync_fp_difference_wraps 1 (boot world_far_ahead)
                          3847483648 0 1 INT_MIN _ _ _ _)) _); try reflexivity.
  discriminate.
Defined.

(** ** Invariants of runs *)

Lemma inv_ret (P : State -> Prop) (E : Event -> Prop) {A : Type} (a : A) :
  inv_run P E (ret a).
Proof. intros st H. split; [exact H|constructor]. Qed.

Lemma inv_bind (P : State -> Prop) (E : Event -> Prop) {A B : Type} (m : M A) (k : A -> M B) :
  inv_run P E m -> (forall a, inv_run P E (k a)) -> inv_run P E (bind m k).
Proof.
  intros Hm Hk st H. destruct (Hm st H) as [H1 E1].
  destruct (Hk (value (m st)) (after (m st)) H1) as [H2 E2].
  split; [exact H2|]. rewrite bind_events. apply Forall_app. split; assumption.
Qed.

Lemma inv_emit (P : State -> Prop) (E : Event -> Prop) (e : Event) :
  E e -> inv_run P E (emit e).
Proof. intros He st H. split; [exact H|]. repeat constructor. exact He. Qed.

Lemma inv_get_globals (P : State -> Prop) (E : Event -> Prop) : inv_run P E get_globals.
Proof. intros st H. split; [exact H|constructor]. Qed.

Lemma inv_get_world (P : State -> Prop) (E : Event -> Prop) : inv_run P E get_world.
Proof. intros st H. split; [exact H|constructor]. Qed.

Lemma inv_upd_globals (P : State -> Prop) (E : Event -> Prop) (f : Globals -> Globals) :
  (forall st, P st -> P (mkState (f (globals st)) (world st))) -> inv_run P E (upd_globals f).
Proof. intros Hf st H. split; [apply Hf, H|constructor]. Qed.

Lemma inv_upd_world (P : State -> Prop) (E : Event -> Prop) (f : World -> World) :
  (forall st, P st -> P (mkState (globals st) (f (world st)))) -> inv_run P E (upd_world f).
Proof. intros Hf st H. split; [apply Hf, H|constructor]. Qed.

Lemma inv_bind_at (P : State -> Prop) (E : Event -> Prop) {A B : Type} (m : M A) (k : A -> M B)
    (st : State) :
  inv_run P E m ->
  (P (after (m st)) ->
   P (after (k (value (m st)) (after (m st)))) /\
   Forall E (events (k (value (m st)) (after (m st))))) ->
  P st -> P (after (bind m k st)) /\ Forall E (events (bind m k st)).
Proof.
  intros Hm Hk H. destruct (Hm st H) as [H1 E1]. destruct (Hk H1) as [H2 E2].
  rewrite bind_after, bind_events. split; [exact H2|]. apply Forall_app. split; assumption.
Qed.

Lemma inv_when (P : State -> Prop) (E : Event -> Prop) (c : bool) (m : M unit) :
  inv_run P E m -> inv_run P E (when c m).
Proof. intros H. destruct c; [exact H|apply inv_ret]. Qed.

(** One step through a computation: [leaf] settles what an event or an
    update has to satisfy, [known] the computations already dealt with. *)
Ltac inv_step leaf known :=
  first
    [ apply inv_ret
    | apply inv_get_globals
    | apply inv_get_world
    | solve [known]
    | apply inv_bind; [|intros ?]
    | apply inv_when
    | apply inv_emit; solve [leaf]
    | apply inv_upd_globals; solve [leaf]
    | apply inv_upd_world; solve [leaf]
    | match goal with
      | |- inv_run _ _ (if ?c then _ else _) => destruct c
      | |- inv_run _ _ (match ?x with _ => _ end) => destruct x
      end ].

Ltac inv_go leaf known := cbv zeta; repeat (inv_step leaf known).

(** *** The window stays an array of ten slots *)

Ltac window_leaf :=
  first [ exact I | intros ? H; exact H ].

Lemma window_add_drift (x : Z) : inv_run window_ok any_event (add_drift x).
Proof.
  intros st [Hl Hi]. split; [|rewrite add_drift_events; constructor].
  destruct (Z.eq_dec x 0) as [->|Hx]; [rewrite add_drift_zero; split; assumption|].
  rewrite add_drift_nonzero by assumption.
  split; cbn [globals drift_data drift_index set_drift_index set_drift_data].
  - rewrite length_insert. exact Hl.
  - destruct (Z.gtb_spec (drift_index (globals st) + 1) 9); lia.
Qed.

Lemma window_calc_drift : inv_run window_ok any_event calc_drift.
Proof.
  intros st [Hl Hi]. split; [|constructor].
  rewrite calc_drift_after.
  split; cbn [globals drift_data drift_index set_drift_data]; [|exact Hi].
  rewrite (Permutation_length (qsort_perm _ _)). exact Hl.
Qed.

Lemma window_getRTC : inv_run window_ok any_event getRTC.
Proof. unfold getRTC. inv_go window_leaf fail. Qed.

Lemma window_get_drift_seconds (r : Z) : inv_run window_ok any_event (get_drift_seconds r).
Proof. unfold get_drift_seconds. inv_go window_leaf fail. Qed.

Create HintDb window.
#[local] Hint Resolve window_add_drift window_calc_drift window_getRTC
  window_get_drift_seconds : window.

Lemma window_setRTC (time saveDrift logMode : Z) :
  inv_run window_ok any_event (setRTC time saveDrift logMode).
Proof. unfold setRTC. inv_go window_leaf ltac:(auto with window). Qed.

#[local] Hint Resolve window_setRTC : window.

Lemma window_write_fp (c : Z) : inv_run window_ok any_event (write_fp c).
Proof. unfold write_fp. inv_go window_leaf ltac:(auto with window). Qed.

Lemma window_print_fp : inv_run window_ok any_event print_fp.
Proof. unfold print_fp. inv_go window_leaf ltac:(auto with window). Qed.

Lemma window_sync_fp (cmdline : Z) : inv_run window_ok any_event (sync_fp cmdline).
Proof. unfold sync_fp. inv_go window_leaf ltac:(auto with window). Qed.

Lemma window_read_conf_lines (lines : list ConfLine) (r : Z) :
  inv_run window_ok any_event (read_conf_lines lines r).
Proof.
  revert r. induction lines as [|l lines IH]; intros r; cbn [read_conf_lines].
  - apply inv_ret.
  - destruct (is_comment l); [apply IH|]. inv_go window_leaf ltac:(apply IH).
Qed.

#[local] Hint Resolve window_write_fp window_print_fp window_sync_fp
  window_read_conf_lines : window.

Lemma window_read_conf_file (reload : Z) : inv_run window_ok any_event (read_conf_file reload).
Proof. unfold read_conf_file. inv_go window_leaf ltac:(auto with window). Qed.

#[local] Hint Resolve window_read_conf_file : window.

Lemma window_handle_signal (sig : Signal) : inv_run window_ok any_event (handle_signal sig).
Proof. unfold handle_signal. inv_go window_leaf ltac:(auto with window). Qed.

#[local] Hint Resolve window_handle_signal : window.

Lemma window_sleep (c : Cycle) : inv_run window_ok any_event (sleep c).
Proof. unfold sleep. inv_go window_leaf ltac:(auto with window). Qed.

#[local] Hint Resolve window_sleep : window.

Lemma window_main_loop (sched : list Cycle) : inv_run window_ok any_event (main_loop sched).
Proof.
  induction sched as [|c sched IH]; cbn [main_loop]; [apply inv_ret|].
  inv_go window_leaf ltac:(first [exact IH | auto with window]).
Qed.

Lemma window_fill_drift_data : inv_run window_ok any_event fill_drift_data.
Proof.
  unfold fill_drift_data. apply inv_upd_globals. intros st [Hl Hi].
  split; [|exact Hi]. cbn [globals drift_data set_drift_data seq foldl].
  rewrite !length_insert. exact Hl.
Qed.

Lemma window_daemonize : inv_run window_ok any_event daemonize.
Proof. unfold daemonize. inv_go window_leaf fail. Qed.

#[local] Hint Resolve window_main_loop window_fill_drift_data window_daemonize : window.

Lemma window_main_daemon (sched : list Cycle) : inv_run window_ok any_event (main_daemon sched).
Proof. unfold main_daemon. inv_go window_leaf ltac:(auto with window). Qed.

Lemma window_main_options (opts : list CliOpt) (action start_daemonized : Z) :
  inv_run window_ok any_event (main_options opts action start_daemonized).
Proof.
  revert action start_daemonized.
  induction opts as [|o opts IH]; intros action sd; cbn [main_options]; [apply inv_ret|].
  destruct o; unfold print_help; inv_go window_leaf ltac:(apply IH).
Qed.

#[local] Hint Resolve window_main_daemon window_main_options : window.

Lemma window_main (argc : Z) (opts : list CliOpt) (sched : list Cycle) :
  inv_run window_ok any_event (main argc opts sched).
Proof. unfold main, print_help. inv_go window_leaf ltac:(auto with window). Qed.

(** X14: every store into the drift window stays within the array.  The
    window has ten slots and a write index in 0..9 when the process starts,
    and add_drift, calc_drift, write_fp, the signal handler, the loop of the
    daemon and main as a whole all keep it so, for every command line,
    world and schedule of signals. *)
Theorem window_always_in_bounds (argc : Z) (opts : list CliOpt) (sched : list Cycle) :
  (forall w : World, window_ok (boot w)) /\
  (forall (st : State) (c : Z), window_ok st -> window_ok (after (write_fp c st))) /\
  (forall (st : State) (sig : Signal), window_ok st -> window_ok (after (handle_signal sig st))) /\
  (forall st : State, window_ok st -> window_ok (after (main_loop sched st))) /\
  (forall st : State, window_ok st -> window_ok (after (main argc opts sched st))) /\
  (forall w : World, window_ok (after (main argc opts sched (boot w)))).
Proof.
  assert (Hboot : forall w : World, window_ok (boot w)).
  { intros w. split; [reflexivity|]. cbn. lia. }
  split; [exact Hboot|].
  split; [intros st c H; apply (window_write_fp c st H)|].
  split; [intros st sig H; apply (window_handle_signal sig st H)|].
  split; [intros st H; apply (window_main_loop sched st H)|].
  split; [intros st H; apply (window_main argc opts sched st H)|].
  intros w. apply (window_main argc opts sched (boot w)), Hboot.
Qed.

Lemma window_always_in_bounds_witness :
  window_ok (after (write_fp (-1) (boot example_world))).
Proof.
  destruct (window_always_in_bounds 2 [Opt_d] []) as (Hboot & Hw & _).
  apply Hw, Hboot.
Defined.

(** *** The configuration file *)

Lemma globals_eta (g : Globals) : set_delay (delay g) (set_verbose (verbose g) g) = g.
Proof. destruct g. reflexivity. Qed.

Lemma default_last_cons {A : Type} (a v : A) (xs : list A) :
  default a (last (v :: xs)) = default v (last xs).
Proof.
  revert a v. induction xs as [|x xs IH]; intros a v; [reflexivity|].
  change (last (v :: x :: xs)) with (last (x :: xs)).
  rewrite (IH a x), (IH v x). reflexivity.
Qed.

Lemma read_conf_lines_run (lines : list ConfLine) (r : Z) (st : State) :
  after (read_conf_lines lines r st) =
    mkState
      (set_delay (default (delay (globals st)) (last (omap scan_timeout (conf_active lines))))
         (set_verbose
            (default (verbose (globals st)) (last (omap scan_verbose (conf_active lines))))
            (globals st)))
      (world st) /\
  value (read_conf_lines lines r st) =
    (if existsb conf_matches (conf_active lines) then 1 else r) /\
  events (read_conf_lines lines r st) = [].
Proof.
  revert r st. induction lines as [|l lines IH]; intros r st.
  - cbn. rewrite globals_eta. destruct st. repeat split; reflexivity.
  - cbn [read_conf_lines conf_active List.filter].
    destruct (is_comment l) eqn:Hc; cbn [negb]; [apply IH|].
    fold (conf_active lines).
    cbn [omap list_omap existsb]. unfold conf_matches at 1.
    destruct (scan_verbose l) as [v|], (scan_timeout l) as [d|]; repeat mstep0;
      match goal with
      | |- context [read_conf_lines lines ?r' ?st'] =>
          destruct (IH r' st') as (-> & -> & ->)
      end;
      cbn [globals world verbose delay set_verbose set_delay orb app];
      rewrite ?default_last_cons;
      repeat split; try reflexivity;
      destruct (existsb conf_matches (conf_active lines)); reflexivity.
Qed.

Lemma read_conf_file_none (reload : Z) (st : State) :
  conf_file_name (globals st) = None -> read_conf_file reload st = mkOutcome 0 st [].
Proof.
  intros Hn. apply outcome_ext; unfold read_conf_file; repeat mstep0; rewrite Hn; reflexivity.
Qed.

Lemma read_conf_file_globals (reload : Z) (st : State) :
  (exists v d : Z, globals (after (read_conf_file reload st)) =
                   set_delay d (set_verbose v (globals st))) /\
  (value (read_conf_file reload st) = -1 \/ value (read_conf_file reload st) = 0 \/
   value (read_conf_file reload st) = 1).
Proof.
  unfold read_conf_file. repeat mstep0.
  destruct (conf_file_name (globals st)) as [name|]; repeat mstep0.
  - destruct (conf_lines (world st)) as [lines|]; repeat mstep0.
    + destruct (read_conf_lines_run lines (-1) st) as (Ha & Hv & _).
      rewrite Hv, Ha.
      split; [|destruct (existsb conf_matches (conf_active lines)); auto].
      destruct (existsb conf_matches (conf_active lines)); cbn [Z.gtb Z.compare];
        [destruct (reload =? 1)|]; repeat mstep0; eexists; eexists; reflexivity.
    + split; [|auto]. exists (verbose (globals st)), (delay (globals st)).
      symmetry. apply globals_eta.
  - split; [|auto]. exists (verbose (globals st)), (delay (globals st)).
    symmetry. apply globals_eta.
Qed.

(** X15: read_conf_file when there is nothing to read.  Without a file name
    it returns 0 and does nothing at all.  With a name whose file cannot be
    opened it returns -1, says so in the system log, and leaves the state
    as it was.  In every case the world is untouched, no global other than
    verbose and delay changes, and the result is -1, 0 or 1. *)
Theorem read_conf_file_failures (reload : Z) (st : State) :
  (conf_file_name (globals st) = None -> read_conf_file reload st = mkOutcome 0 st []) /\
  (forall name : string,
     conf_file_name (globals st) = Some name -> conf_lines (world st) = None ->
     read_conf_file reload st =
       mkOutcome (-1) st [EvSyslog "Can not open config file: %s, error: %s" [AStr name]]) /\
  world (after (read_conf_file reload st)) = world st /\
  (exists v d : Z, globals (after (read_conf_file reload st)) =
                   set_delay d (set_verbose v (globals st))) /\
  (value (read_conf_file reload st) = -1 \/ value (read_conf_file reload st) = 0 \/
   value (read_conf_file reload st) = 1).
Proof.
  split; [exact (read_conf_file_none reload st)|].
  split; [|split; [apply read_conf_file_world|exact (read_conf_file_globals reload st)]].
  intros name Hn Hl.
  apply outcome_ext; unfold read_conf_file; repeat mstep0; rewrite Hn; repeat mstep0;
    rewrite Hl; repeat mstep0; reflexivity.
Qed.

Lemma read_conf_file_failures_witness :
  read_conf_file 0 (boot example_world) = mkOutcome 0 (boot example_world) [].
Proof.
  refine (proj1 (read_conf_file_failures 0 (boot example_world)) _). reflexivity.
Defined.

(** X16: read_conf_file on a file that opens.  Lines that start with '#'
    are skipped.  Among the others the last line that sets verbose gives
    the new verbosity, the last line that sets timeout gives the new delay,
    and a setting that no line gives keeps its value.  The result is 1, with
    one line in the system log, when some line matched one of the two
    patterns, and -1, with no line in the log, when none did. *)
Theorem read_conf_file_last_wins (reload : Z) (st : State) (name : string)
    (lines : list ConfLine) :
  conf_file_name (globals st) = Some name -> conf_lines (world st) = Some lines ->
  let st' := after (read_conf_file reload st) in
  verbose (globals st') =
    default (verbose (globals st)) (last (omap scan_verbose (conf_active lines))) /\
  delay (globals st') =
    default (delay (globals st)) (last (omap scan_timeout (conf_active lines))) /\
  (existsb conf_matches (conf_active lines) = true ->
     value (read_conf_file reload st) = 1 /\
     exists fmt args, events (read_conf_file reload st) = [EvSyslog fmt args]) /\
  (existsb conf_matches (conf_active lines) = false ->
     value (read_conf_file reload st) = -1 /\ events (read_conf_file reload st) = []).
Proof.
  intros Hn Hl st'. unfold st', read_conf_file. repeat mstep0. rewrite Hn. repeat mstep0.
  rewrite Hl. repeat mstep0.
  destruct (read_conf_lines_run lines (-1) st) as (Ha & Hv & He).
  rewrite Hv, He, Ha.
  destruct (existsb conf_matches (conf_active lines)); cbn [Z.gtb Z.compare];
    [destruct (reload =? 1)|]; repeat mstep0;
    (split; [reflexivity|]); (split; [reflexivity|]);
    split; intros Hx; try discriminate Hx; split; try reflexivity;
    eexists; eexists; reflexivity.
Qed.

Lemma read_conf_file_last_wins_witness :
  verbose (globals (after (read_conf_file 1 state_with_conf))) = 1 /\
  delay (globals (after (read_conf_file 1 state_with_conf))) = 900.
Proof.
  destruct (read_conf_file_last_wins 1 state_with_conf "/etc/fpclock.conf" example_conf
              eq_refl eq_refl) as (Hv & Hd & _).
  split; [exact Hv|exact Hd].
Defined.

(** *** No configuration file is ever read *)

Ltac conf_leaf := first [ reflexivity | intros ? H; exact H ].

Lemma conf_read_conf_file (Q : Z -> Z -> Prop) (reload : Z) :
  inv_run (conf_inv Q) no_conf_syslog (read_conf_file reload).
Proof.
  intros st H. rewrite (read_conf_file_none reload st (proj1 H)).
  split; [exact H|constructor].
Qed.

Lemma conf_getRTC (Q : Z -> Z -> Prop) : inv_run (conf_inv Q) no_conf_syslog getRTC.
Proof. unfold getRTC. inv_go conf_leaf fail. Qed.

Lemma conf_get_drift_seconds (Q : Z -> Z -> Prop) (r : Z) :
  inv_run (conf_inv Q) no_conf_syslog (get_drift_seconds r).
Proof. unfold get_drift_seconds. inv_go conf_leaf fail. Qed.

Lemma conf_add_drift (Q : Z -> Z -> Prop) (x : Z) :
  inv_run (conf_inv Q) no_conf_syslog (add_drift x).
Proof. unfold add_drift. inv_go conf_leaf fail. Qed.

Lemma conf_calc_drift (Q : Z -> Z -> Prop) : inv_run (conf_inv Q) no_conf_syslog calc_drift.
Proof. unfold calc_drift. inv_go conf_leaf fail. Qed.

Create HintDb conf.
#[local] Hint Resolve conf_read_conf_file conf_getRTC conf_get_drift_seconds conf_add_drift
  conf_calc_drift : conf.

Lemma conf_setRTC (Q : Z -> Z -> Prop) (time saveDrift logMode : Z) :
  inv_run (conf_inv Q) no_conf_syslog (setRTC time saveDrift logMode).
Proof. unfold setRTC. inv_go conf_leaf ltac:(auto with conf). Qed.

#[local] Hint Resolve conf_setRTC : conf.

Lemma conf_write_fp (Q : Z -> Z -> Prop) (c : Z) :
  inv_run (conf_inv Q) no_conf_syslog (write_fp c).
Proof. unfold write_fp. inv_go conf_leaf ltac:(auto with conf). Qed.

Lemma conf_print_fp (Q : Z -> Z -> Prop) : inv_run (conf_inv Q) no_conf_syslog print_fp.
Proof. unfold print_fp. inv_go conf_leaf ltac:(auto with conf). Qed.

Lemma conf_sync_fp (Q : Z -> Z -> Prop) (cmdline : Z) :
  inv_run (conf_inv Q) no_conf_syslog (sync_fp cmdline).
Proof. unfold sync_fp. inv_go conf_leaf ltac:(auto with conf). Qed.

#[local] Hint Resolve conf_write_fp conf_print_fp conf_sync_fp : conf.

Lemma conf_handle_signal (Q : Z -> Z -> Prop) (sig : Signal) :
  inv_run (conf_inv Q) no_conf_syslog (handle_signal sig).
Proof. unfold handle_signal. inv_go conf_leaf ltac:(auto with conf). Qed.

#[local] Hint Resolve conf_handle_signal : conf.

Lemma conf_sleep (Q : Z -> Z -> Prop) (c : Cycle) :
  inv_run (conf_inv Q) no_conf_syslog (sleep c).
Proof. unfold sleep. inv_go conf_leaf ltac:(auto with conf). Qed.

#[local] Hint Resolve conf_sleep : conf.

Lemma conf_main_loop (Q : Z -> Z -> Prop) (sched : list Cycle) :
  inv_run (conf_inv Q) no_conf_syslog (main_loop sched).
Proof.
  induction sched as [|c sched IH]; cbn [main_loop]; [apply inv_ret|].
  inv_go conf_leaf ltac:(first [exact IH | auto with conf]).
Qed.

Lemma conf_daemonize (Q : Z -> Z -> Prop) : inv_run (conf_inv Q) no_conf_syslog daemonize.
Proof. unfold daemonize. inv_go conf_leaf fail. Qed.

#[local] Hint Resolve conf_main_loop conf_daemonize : conf.

Lemma conf_main_daemon (Q : Z -> Z -> Prop) (sched : list Cycle) :
  inv_run (conf_inv Q) no_conf_syslog (main_daemon sched).
Proof. unfold main_daemon, fill_drift_data. inv_go conf_leaf ltac:(auto with conf). Qed.

Ltac conf_any_leaf :=
  first [ reflexivity | intros ? H; exact H | intros ? [H _]; split; [exact H|exact I] ].

Lemma conf_main_options (opts : list CliOpt) (action start_daemonized : Z) :
  from_getopt opts ->
  inv_run (conf_inv (fun _ _ => True)) no_conf_syslog
    (main_options opts action start_daemonized).
Proof.
  revert action start_daemonized.
  induction opts as [|o opts IH]; intros action sd Hg; cbn [main_options]; [apply inv_ret|].
  assert (Hrest : from_getopt opts) by (intros name H; apply (Hg name); right; exact H).
  destruct o; try (exfalso; apply (Hg arg); left; reflexivity);
    unfold print_help; inv_go conf_any_leaf ltac:(apply IH; exact Hrest).
Qed.

#[local] Hint Resolve conf_main_daemon : conf.

Lemma conf_main (argc : Z) (opts : list CliOpt) (sched : list Cycle) :
  from_getopt opts ->
  inv_run (conf_inv (fun _ _ => True)) no_conf_syslog (main argc opts sched).
Proof.
  intros Hg. unfold main, print_help.
  inv_go conf_any_leaf ltac:(first [apply conf_main_options; exact Hg | auto with conf]).
Qed.

(** X17: no configuration file is ever read.  The switch of main has a
    case that sets conf_file_name, but getopt_long never returns its value;
    so conf_file_name is NULL after every run of main and no message of
    read_conf_file reaches the system log.  With no file named, the daemon
    keeps the verbosity and the interval it was started with through the
    whole loop, whatever signals arrive, SIGHUP included. *)
Theorem config_never_read (argc : Z) (opts : list CliOpt) (sched : list Cycle) :
  from_getopt opts ->
  (forall w : World,
     conf_file_name (globals (after (main argc opts sched (boot w)))) = None /\
     Forall no_conf_syslog (events (main argc opts sched (boot w)))) /\
  (forall st : State, conf_file_name (globals st) = None ->
     verbose (globals (after (main_daemon sched st))) = verbose (globals st) /\
     delay (globals (after (main_daemon sched st))) = delay (globals st) /\
     Forall no_conf_syslog (events (main_daemon sched st))).
Proof.
  intros Hg. split.
  - intros w.
    destruct (conf_main argc opts sched Hg (boot w)) as [[Hn _] He];
      [split; [reflexivity|exact I]|].
    split; assumption.
  - intros st Hn.
    destruct (conf_main_daemon
                (fun v d => v = verbose (globals st) /\ d = delay (globals st)) sched st)
      as [(_ & Hv & Hd) He]; [repeat split; assumption|].
    repeat split; assumption.
Qed.

Lemma config_never_read_witness :
  conf_file_name
    (globals (after (main 3 [Opt_v; Opt_d] [cycle_sigint] (boot world_with_conf)))) = None.
Proof.
  refine (proj1 (proj1 (config_never_read 3 [Opt_v; Opt_d] [cycle_sigint] _) world_with_conf)).
  intros name [H|[H|[]]]; discriminate H.
Defined.

(** Were 'c' handed to the switch, the file named would be read when the
    daemon starts. *)
Example config_read_when_named :
  conf_file_name
    (globals (after (main 4 [Opt_c "/etc/fpclock.conf"; Opt_d] [cycle_sigint]
                       (boot world_with_conf)))) = Some "/etc/fpclock.conf" /\
  In (EvSyslog "Configuration of %s read from file %s"
        [AStr app_name; AStr "/etc/fpclock.conf"])
     (events (main 4 [Opt_c "/etc/fpclock.conf"; Opt_d] [cycle_sigint]
                (boot world_with_conf))).
Proof. split; [vm_compute; reflexivity|]. vm_compute. find_event. Qed.

(** *** Signals *)

Lemma calc_drift_events (st : State) : events (calc_drift st) = [].
Proof. reflexivity. Qed.

Lemma calc_drift_world (st : State) : world (after (calc_drift st)) = world st.
Proof. reflexivity. Qed.

Lemma handle_signal_SIGINT_events (st : State) :
  events (handle_signal SIGINT st) =
    EvLog 0 "Debug: stopping daemon ..." [] ::
    (if negb (pid_fd (globals st) =? -1) then [EvUnlock (pid_fd (globals st))] else []) ++
    (match pid_file_name (globals st) with
     | Some name => [EvUnlink name]
     | None => []
     end) ++
    (if drift_writable (world st)
     then [EvLog 0 "Write drift %ld:%lf"
             [AInt (sys_clock (world st)); ADouble (value (calc_drift st))];
           EvDriftWrite (sys_clock (world st)) (value (calc_drift st))]
     else []).
Proof.
  unfold handle_signal. repeat mstep0.
  destruct (negb (pid_fd (globals st) =? -1)); repeat mstep0;
    destruct (pid_file_name (globals st)); repeat mstep0;
    destruct (drift_writable (world st)); repeat mstep0;
    rewrite ?calc_drift_events; reflexivity.
Qed.

Lemma handle_signal_SIGINT_after (st : State) :
  after (handle_signal SIGINT st) =
    mkState
      (set_running 0
         (if drift_writable (world st) then globals (after (calc_drift st)) else globals st))
      (world st).
Proof.
  unfold handle_signal. repeat mstep0.
  destruct (negb (pid_fd (globals st) =? -1)); repeat mstep0;
    destruct (pid_file_name (globals st)); repeat mstep0;
    destruct (drift_writable (world st)); repeat mstep0; reflexivity.
Qed.

(** X18: what SIGINT does.  The handler always sets running to 0.  The
    lock is released exactly when pid_fd is not -1, and the lock file is
    removed exactly when it has a name.  When the drift file opens for
    writing, the record written is the system time together with what
    calc_drift returns for the window at that moment, and the window is
    left as calc_drift leaves it; when it does not open, nothing is written
    and no global but running changes.  The other signals leave running
    alone. *)
Theorem handle_signal_SIGINT (st : State) :
  running (globals (after (handle_signal SIGINT st))) = 0 /\
  (forall fd : Z, In (EvUnlock fd) (events (handle_signal SIGINT st)) <->
                  fd = pid_fd (globals st) /\ fd <> -1) /\
  (forall name : string, In (EvUnlink name) (events (handle_signal SIGINT st)) <->
                         pid_file_name (globals st) = Some name) /\
  (drift_writable (world st) = true ->
     In (EvDriftWrite (sys_clock (world st)) (value (calc_drift st)))
        (events (handle_signal SIGINT st)) /\
     globals (after (handle_signal SIGINT st)) =
       set_running 0 (globals (after (calc_drift st)))) /\
  (drift_writable (world st) = false ->
     (forall (t : Z) (d : double),
        ~ In (EvDriftWrite t d) (events (handle_signal SIGINT st))) /\
     globals (after (handle_signal SIGINT st)) = set_running 0 (globals st)) /\
  (forall sig : Signal, sig <> SIGINT ->
     running (globals (after (handle_signal sig st))) = running (globals st)).
Proof.
  rewrite handle_signal_SIGINT_events, handle_signal_SIGINT_after.
  split; [reflexivity|]. split; [|split; [|split; [|split]]].
  - intros fd. cbn [In]. rewrite !in_app_iff.
    destruct (Z.eqb_spec (pid_fd (globals st)) (-1)) as [E|E]; cbn [negb In];
      destruct (pid_file_name (globals st)); destruct (drift_writable (world st));
      cbn [In]; split;
      try (intros [H|[H|[H|H]]]; try discriminate H; try contradiction;
           repeat (destruct H as [H|H]; try discriminate H; try contradiction));
      try (injection H as <-; split; [reflexivity|exact E]);
      try (intros [-> Hne]; try contradiction; right; left; left; reflexivity).
  - intros name. cbn [In]. rewrite !in_app_iff.
    destruct (negb (pid_fd (globals st) =? -1)); destruct (pid_file_name (globals st)) as [n|];
      destruct (drift_writable (world st)); cbn [In]; split;
      try (intros [H|[H|[H|H]]]; try discriminate H; try contradiction;
           repeat (destruct H as [H|H]; try discriminate H; try contradiction));
      try (injection H as <-; reflexivity);
      try discriminate;
      try (intros [= ->]; right; right; left; left; reflexivity).
  - intros ->. split; [|reflexivity].
    right. rewrite !in_app_iff. right. right. right. left. reflexivity.
  - intros ->. split; [|reflexivity].
    intros t d [H|H]; [discriminate H|]. rewrite !in_app_iff in H.
    destruct (negb (pid_fd (globals st) =? -1)), (pid_file_name (globals st));
      cbn [In] in H;
      repeat (destruct H as [H|H]; try discriminate H; try contradiction).
  - intros sig Hs. destruct sig; [contradiction| | |reflexivity].
    + unfold handle_signal. repeat mstep0.
      destruct (read_conf_file_globals 1 st) as [(v & d & Hg) _].
      rewrite Hg. reflexivity.
    + reflexivity.
Qed.

Lemma handle_signal_SIGINT_witness :
  In (EvDriftWrite 1700000000
        (ddiv (ddiv (double_of_int 0) (double_of_int 2)) (double_of_int 1800)))
     (events (handle_signal SIGINT (boot example_world))).
Proof.
  destruct (handle_signal_SIGINT (boot example_world)) as (_ & _ & _ & H & _).
  destruct H as [Hin _]; [reflexivity|]. exact Hin.
Defined.

Lemma bind_ext {A B : Type} (m : M A) (k1 k2 : A -> M B) (st : State) :
  k1 (value (m st)) (after (m st)) = k2 (value (m st)) (after (m st)) ->
  bind m k1 st = bind m k2 st.
Proof. intros H. unfold bind. cbv zeta. rewrite H. reflexivity. Qed.

Lemma main_loop_stopped (sched : list Cycle) (st : State) :
  running (globals st) <> 1 -> main_loop sched st = ret tt st.
Proof.
  intros Hr. destruct sched as [|c sched]; [reflexivity|].
  cbn [main_loop]. unfold bind at 1. cbn [value after events get_globals].
  destruct (Z.eqb_spec (running (globals st)) 1); [contradiction|reflexivity].
Qed.

Lemma sleep_SIGINT_running (c : Cycle) (st : State) :
  signal c = Some SIGINT -> running (globals (after (sleep c st))) = 0.
Proof.
  intros Hs. unfold sleep. repeat mstep0. rewrite Hs.
  rewrite handle_signal_SIGINT_after. reflexivity.
Qed.

(** X19: SIGINT ends the loop.  When the sleep of a turn is ended by SIGINT,
    the turns that the schedule holds after it are never run: the loop does
    what it does for that turn alone, and running is not 1 when it
    returns. *)
Theorem main_loop_stops_on_SIGINT (c : Cycle) (rest : list Cycle) (st : State) :
  signal c = Some SIGINT ->
  main_loop (c :: rest) st = main_loop [c] st /\
  running (globals (after (main_loop (c :: rest) st))) <> 1.
Proof.
  intros Hs.
  assert (Heq : main_loop (c :: rest) st = main_loop [c] st).
  { cbn [main_loop]. apply bind_ext. cbn [value after get_globals].
    destruct (running (globals st) =? 1); [|reflexivity].
    apply bind_ext. apply bind_ext.
    match goal with
    | |- main_loop rest ?s = _ =>
        assert (Hr : running (globals s) <> 1)
          by (rewrite (sleep_SIGINT_running c _ Hs); discriminate);
        rewrite (main_loop_stopped rest s Hr)
    end.
    reflexivity. }
  split; [exact Heq|]. rewrite Heq.
  cbn [main_loop]. repeat mstep0.
  destruct (Z.eqb_spec (running (globals st)) 1) as [E|E]; repeat mstep0.
  - rewrite (sleep_SIGINT_running c _ Hs). discriminate.
  - exact E.
Qed.

Lemma main_loop_stops_on_SIGINT_witness :
  main_loop [cycle_sigint; cycle_quiet; cycle_quiet] (after (main_daemon [] (boot example_world)))
  = main_loop [cycle_sigint] (after (main_daemon [] (boot example_world))).
Proof.
  refine (proj1 (main_loop_stops_on_SIGINT cycle_sigint [cycle_quiet; cycle_quiet] _ _)).
  reflexivity.
Defined.

(** *** The daemon bootstrap *)

Ltac boot_solve :=
  unfold boot_failed, EXIT_SUCCESS, EXIT_FAILURE in *; cbn [In app];
  repeat match goal with
         | H : ?x = _ |- context [?x] => rewrite H
         end;
  intuition (auto; cbn [pid_fd set_pid_fd]; try congruence; try lia).

(** X20: how daemonize ends.  It lets the process go on as the daemon
    exactly when both forks return in the child, setsid succeeds and, if a
    lock file is named, the file opens and the lock is obtained; only then
    is the pid written, to the descriptor that open returned.  The parents
    of the two forks leave with EXIT_SUCCESS, every failure leaves with
    EXIT_FAILURE, and the world is not changed. *)
Theorem daemonize_outcome (st : State) :
  (value (daemonize st) = None <->
     fork1 (world st) = ForkChild /\ setsid_ok (world st) = true /\
     fork2 (world st) = ForkChild /\
     (pid_file_name (globals st) = None \/
      (0 <= lock_open (world st) /\ lock_ok (world st) = true))) /\
  (value (daemonize st) = Some EXIT_SUCCESS <->
     fork1 (world st) = ForkParent \/
     (fork1 (world st) = ForkChild /\ setsid_ok (world st) = true /\
      fork2 (world st) = ForkParent)) /\
  (pid_file_name (globals st) <> None ->
     (value (daemonize st) = Some EXIT_FAILURE <-> boot_failed (world st))) /\
  (forall fd : Z, In (EvPidWrite fd) (events (daemonize st)) ->
     value (daemonize st) = None /\ fd = lock_open (world st) /\
     pid_fd (globals (after (daemonize st))) = fd) /\
  world (after (daemonize st)) = world st.
Proof.
  unfold daemonize. repeat mstep0.
  destruct (fork1 (world st)) eqn:F1; repeat mstep0; [boot_solve..|].
  destruct (setsid_ok (world st)) eqn:S; cbn [negb]; repeat mstep0; [|boot_solve].
  destruct (fork2 (world st)) eqn:F2; repeat mstep0; [boot_solve..|].
  destruct (pid_file_name (globals st)) eqn:N; repeat mstep0; [|boot_solve].
  destruct (Z.ltb_spec (lock_open (world st)) 0); repeat mstep0; [boot_solve|].
  destruct (lock_ok (world st)) eqn:L; cbn [negb]; repeat mstep0; boot_solve.
Qed.

Lemma daemonize_outcome_witness :
  value (daemonize (mkState (set_pid_file_name (Some "/var/run/fpclock.pid") initial_globals)
                            world_locked)) = Some EXIT_FAILURE.
Proof.
  destruct (daemonize_outcome
              (mkState (set_pid_file_name (Some "/var/run/fpclock.pid") initial_globals)
                       world_locked)) as (_ & _ & H & _).
  apply H; [discriminate|].
  right. right. right. repeat split; try reflexivity. right. reflexivity.
Defined.

(** *** main *)

Lemma main_options_value_indep (opts : list CliOpt) (action sd : Z) (st st' : State) :
  value (main_options opts action sd st) = value (main_options opts action sd st').
Proof.
  revert action sd st st'.
  induction opts as [|o opts IH]; intros action sd st st'; [reflexivity|].
  cbn [main_options]. destruct o; repeat mstep0; try apply IH; reflexivity.
Qed.

Lemma opt_main_options (w : World) (p : option string) (opts : list CliOpt) (action sd : Z) :
  inv_run (opt_inv w p) is_help (main_options opts action sd).
Proof.
  revert action sd.
  induction opts as [|o opts IH]; intros action sd; cbn [main_options]; [apply inv_ret|].
  destruct o; unfold print_help; inv_go conf_leaf ltac:(apply IH).
Qed.

Lemma main_options_help (opts : list CliOpt) (action sd : Z) (st : State) :
  (value (main_options opts action sd st) = None <->
     In Opt_h opts \/ In Opt_unknown opts) /\
  (value (main_options opts action sd st) = None ->
     events (main_options opts action sd st) = [EvPrint "help"]) /\
  (value (main_options opts action sd st) <> None ->
     events (main_options opts action sd st) = []).
Proof.
  revert action sd st.
  induction opts as [|o opts IH]; intros action sd st.
  - cbn. repeat split; try discriminate; try tauto.
  - cbn [main_options In].
    destruct o; try destruct arg; unfold print_help; repeat mstep0;
      try (match goal with
           | |- context [main_options opts ?a ?s ?st'] =>
               destruct (IH a s st') as (Hv & He1 & He2)
           end;
           split; [rewrite Hv; split; [tauto|intros [[H|H]|[H|H]]; try discriminate H; tauto]|];
           split; intros H; cbn [app]; auto);
      try (split; [split; [auto|reflexivity]|split; [reflexivity|congruence]]).
Qed.

(** X21: a request for help wins over everything else on the command line.
    When main is called without arguments, or when -h or an option it does
    not know stands anywhere among the options, main prints the help once
    and returns EXIT_SUCCESS: no action given before or after it is
    performed, the front-panel clock and the system clock are not touched,
    and the process does not become a daemon. *)
Theorem main_help_wins (argc : Z) (opts : list CliOpt) (sched : list Cycle) (st : State) :
  argc = 1 \/ In Opt_h opts \/ In Opt_unknown opts ->
  value (main argc opts sched st) = EXIT_SUCCESS /\
  events (main argc opts sched st) = [EvPrint "help"] /\
  world (after (main argc opts sched st)) = world st.
Proof.
  intros H. unfold main.
  destruct (Z.eqb_spec argc 1) as [E|E]; [unfold print_help; repeat mstep0; auto|].
  destruct H as [H|H]; [contradiction|].
  destruct (main_options_help opts 0 0 (main_start st)) as (Hv & He & _).
  destruct (opt_main_options (world st) (Some "/var/run/fpclock.pid") opts 0 0 (main_start st))
    as [[Hw _] _]; [split; reflexivity|].
  apply Hv in H. specialize (He H).
  repeat mstep0. fold (main_start st). rewrite H, He. repeat mstep0.
  rewrite Hw. auto.
Qed.

Lemma main_help_wins_witness :
  events (main 4 [Opt_p; Opt_d; Opt_h; Opt_r] [] (boot world_ahead_31)) = [EvPrint "help"].
Proof.
  refine (proj1 (proj2 (main_help_wins 4 [Opt_p; Opt_d; Opt_h; Opt_r] [] (boot world_ahead_31) _))).
  right. left. cbn. auto.
Defined.

(** What a run keeps and what it emits, from what its steps keep and emit:
    [P] is kept by every change of the globals, [E] holds of every event
    that is neither a write to the front-panel clock, nor a call on the
    system clock, nor an event of the daemon. *)
Section Frame.

Variable P : State -> Prop.
Variable E : Event -> Prop.
Hypothesis P_globals : forall (st : State) (g : Globals), P st -> P (mkState g (world st)).
Hypothesis E_plain : forall e : Event,
  is_hw_write e = false -> is_clock_call e = false -> is_daemon_event e = false -> E e.

Ltac frame_leaf extra :=
  first [ apply E_plain; reflexivity
        | intros ? H; apply P_globals; exact H
        | extra ].

Lemma frame_getRTC : inv_run P E getRTC.
Proof. unfold getRTC. inv_go ltac:(frame_leaf fail) fail. Qed.

Lemma frame_get_drift_seconds (r : Z) : inv_run P E (get_drift_seconds r).
Proof. unfold get_drift_seconds. inv_go ltac:(frame_leaf fail) fail. Qed.

Lemma frame_add_drift (x : Z) : inv_run P E (add_drift x).
Proof. unfold add_drift. inv_go ltac:(frame_leaf fail) fail. Qed.

Lemma frame_calc_drift : inv_run P E calc_drift.
Proof. unfold calc_drift. inv_go ltac:(frame_leaf fail) fail. Qed.

Ltac frame_known :=
  idtac;
  lazymatch goal with
  | |- inv_run _ _ getRTC => apply frame_getRTC
  | |- inv_run _ _ (get_drift_seconds _) => apply frame_get_drift_seconds
  | |- inv_run _ _ (add_drift _) => apply frame_add_drift
  | |- inv_run _ _ calc_drift => apply frame_calc_drift
  end.

Lemma frame_print_fp : inv_run P E print_fp.
Proof. unfold print_fp. inv_go ltac:(frame_leaf fail) ltac:(frame_known). Qed.

Lemma frame_main_options (opts : list CliOpt) (action sd : Z) :
  inv_run P E (main_options opts action sd).
Proof.
  revert action sd.
  induction opts as [|o opts IH]; intros action sd; cbn [main_options]; [apply inv_ret|].
  destruct o; unfold print_help; inv_go ltac:(frame_leaf fail) ltac:(apply IH).
Qed.

Section Writes.

Hypothesis P_rtc : forall (st : State) (v : Z),
  P st -> P (mkState (globals st) (set_rtc v (world st))).
Hypothesis E_write : forall e : Event, is_hw_write e = true -> E e.

Lemma frame_setRTC (time saveDrift logMode : Z) : inv_run P E (setRTC time saveDrift logMode).
Proof.
  unfold setRTC.
  inv_go ltac:(frame_leaf ltac:(first [apply E_write; reflexivity | intros ? H; apply P_rtc; exact H]))
         ltac:(frame_known).
Qed.

Lemma frame_write_fp (c : Z) : inv_run P E (write_fp c).
Proof.
  unfold write_fp.
  inv_go ltac:(frame_leaf fail)
         ltac:(idtac; lazymatch goal with |- inv_run _ _ (setRTC _ _ _) => apply frame_setRTC end).
Qed.

End Writes.

Section Clock.

Hypothesis P_sys_clock : forall (st : State) (v : Z),
  P st -> P (mkState (globals st) (set_sys_clock v (world st))).
Hypothesis P_slew : forall (st : State) (v : Z),
  P st -> P (mkState (globals st) (set_slew v (world st))).
Hypothesis E_clock : forall e : Event, is_clock_call e = true -> E e.

Lemma frame_sync_fp (cmdline : Z) : inv_run P E (sync_fp cmdline).
Proof.
  unfold sync_fp.
  inv_go ltac:(frame_leaf ltac:(first [ apply E_clock; reflexivity
                                      | intros ? H; apply P_sys_clock; exact H
                                      | intros ? H; apply P_slew; exact H ]))
         ltac:(frame_known).
Qed.

End Clock.

(** main when the option loop has found an action. *)
Lemma frame_main_action (argc : Z) (opts : list CliOpt) (sched : list Cycle) (st : State)
    (action sd : Z) :
  argc <> 1 ->
  value (main_options opts 0 0 st) = Some (action, sd) ->
  action <> 0 ->
  (action = 1 -> inv_run P E print_fp) ->
  (action = 2 -> forall c : Z, inv_run P E (write_fp c)) ->
  (action = 3 -> inv_run P E (sync_fp 1)) ->
  P st ->
  P (after (main argc opts sched st)) /\ Forall E (events (main argc opts sched st)).
Proof.
  intros Hargc Hv Ha H1 H2 H3.
  unfold main. destruct (Z.eqb_spec argc 1) as [?|_]; [contradiction|].
  assert (Ht : truthy action = true).
  { unfold truthy. destruct (Z.eqb_spec action 0); [contradiction|reflexivity]. }
  apply inv_bind_at; [apply inv_upd_globals; intros ? H; apply P_globals; exact H|].
  apply inv_bind_at; [apply inv_upd_globals; intros ? H; apply P_globals; exact H|].
  apply inv_bind_at; [apply frame_main_options|].
  rewrite (main_options_value_indep opts 0 0 _ st), Hv. cbv beta iota.
  intros Hs.
  refine ((_ : inv_run P E _) _ Hs).
  rewrite Ht.
  destruct (Z.eqb_spec action 1) as [A1|A1]; [specialize (H1 A1)|];
    (destruct (Z.eqb_spec action 2) as [A2|A2]; [specialize (H2 A2)|]);
    (destruct (Z.eqb_spec action 3) as [A3|A3]; [specialize (H3 A3)|]);
    inv_go ltac:(frame_leaf fail) ltac:(first [exact H1 | exact (H2 _) | exact H3]).
Qed.

End Frame.

Lemma main_options_range (opts : list CliOpt) (action sd : Z) (st : State) (a' sd' : Z) :
  value (main_options opts action sd st) = Some (a', sd') ->
  (a' = action \/ a' = 1 \/ a' = 2 \/ a' = 3) /\ (sd' = sd \/ sd' = 1).
Proof.
  revert action sd st.
  induction opts as [|o opts IH]; intros action sd st; cbn [main_options].
  - cbn. intros [= <- <-]. auto.
  - destruct o; try destruct arg; unfold print_help; repeat mstep0;
      try discriminate; intros H; apply IH in H; intuition auto.
Qed.

Lemma main_daemon_value (sched : list Cycle) (st : State) :
  value (main_daemon sched st) = EXIT_SUCCESS.
Proof. unfold main_daemon. repeat mstep0. reflexivity. Qed.

Lemma daemonize_code (st : State) :
  pid_file_name (globals st) <> None ->
  value (daemonize st) = None \/ value (daemonize st) = Some EXIT_SUCCESS \/
  (value (daemonize st) = Some EXIT_FAILURE /\ boot_failed (world st)).
Proof.
  intros Hn. unfold daemonize. repeat mstep0.
  destruct (fork1 (world st)) eqn:F1; repeat mstep0; [boot_solve..|].
  destruct (setsid_ok (world st)) eqn:S; cbn [negb]; repeat mstep0; [|boot_solve].
  destruct (fork2 (world st)) eqn:F2; repeat mstep0; [boot_solve..|].
  destruct (pid_file_name (globals st)) eqn:N; repeat mstep0; [|boot_solve].
  destruct (Z.ltb_spec (lock_open (world st)) 0); repeat mstep0; [boot_solve|].
  destruct (lock_ok (world st)) eqn:L; cbn [negb]; repeat mstep0; boot_solve.
Qed.

Lemma main_action_value (argc : Z) (opts : list CliOpt) (sched : list Cycle) (st : State)
    (action sd : Z) :
  argc <> 1 ->
  value (main_options opts 0 0 st) = Some (action, sd) ->
  action <> 0 ->
  value (main argc opts sched st) = EXIT_SUCCESS.
Proof.
  intros Hargc Hv Ha. unfold main.
  destruct (Z.eqb_spec argc 1) as [?|_]; [contradiction|].
  assert (Ht : truthy action = true).
  { unfold truthy. destruct (Z.eqb_spec action 0); [contradiction|reflexivity]. }
  repeat mstep0. rewrite (main_options_value_indep opts 0 0 _ st), Hv.
  repeat mstep0. rewrite Ht. repeat mstep0. reflexivity.
Qed.

Ltac event_cases :=
  unfold no_daemon_event, reads_only, no_clock_call, no_hw_write;
  solve [intros e; destruct e; cbn; intros; try congruence; auto].

Ltac frame_side :=
  first [ event_cases
        | solve [intros; exact I]
        | solve [intros ? ? H; exact H] ].



(** X23: the exit status of main tells of nothing but a failed start of
    the daemon.  main returns a status other than EXIT_SUCCESS only when
    the command line asked for the daemon and for no action, and daemonize
    failed at a fork, at setsid or at the lock file; the status is then
    EXIT_FAILURE.  A failed read or write of the front-panel clock, a
    rejected epoch and a failed adjustment of the system clock all end in
    EXIT_SUCCESS. *)
Theorem main_failure_is_boot_failure (argc : Z) (opts : list CliOpt) (sched : list Cycle) (st : State) :
  value (main argc opts sched st) <> EXIT_SUCCESS ->
  value (main argc opts sched st) = EXIT_FAILURE /\
  boot_failed (world st) /\
  value (main_options opts 0 0 st) = Some (0, 1).
Proof.
  unfold main.
  destruct (Z.eqb_spec argc 1) as [?|_]; [repeat mstep0; congruence|].
  destruct (opt_main_options (world st) (Some "/var/run/fpclock.pid") opts 0 0 (main_start st))
    as [[Hw Hp] _]; [split; reflexivity|].
  repeat mstep0. fold (main_start st).
  rewrite (main_options_value_indep opts 0 0 _ st).
  destruct (value (main_options opts 0 0 st)) as [[a sd]|] eqn:Hv; [|repeat mstep0; congruence].
  repeat mstep0.
  destruct (truthy a) eqn:Ta; repeat mstep0; [congruence|].
  destruct (truthy sd) eqn:Tsd; repeat mstep0; [|congruence].
  match goal with
  | |- context [daemonize (after ((if ?c then ?m else ret tt) ?s))] =>
      replace (after ((if c then m else ret tt) s)) with s
        by (destruct c; mrun0; reflexivity)
  end.
  set (s := after (main_options opts 0 0 (main_start st))) in *.
  assert (a = 0) as ->.
  { unfold truthy in Ta. destruct (Z.eqb_spec a 0); [assumption|discriminate]. }
  assert (sd = 1) as ->.
  { destruct (main_options_range _ _ _ _ _ _ Hv) as [_ [->| ->]]; [discriminate|reflexivity]. }
  destruct (daemonize_code s) as [Hd|[Hd|[Hd Hb]]]; [congruence|rewrite Hd..].
  - repeat mstep0. rewrite main_daemon_value. congruence.
  - repeat mstep0. congruence.
  - repeat mstep0. rewrite <- Hw. auto.
Qed.

Lemma main_failure_is_boot_failure_witness :
  value (main 2 [Opt_d] [] (boot world_locked)) = EXIT_FAILURE.
Proof.
  refine (proj1 (main_failure_is_boot_failure 2 [Opt_d] [] (boot world_locked) _)).
  vm_compute. discriminate.
Defined.

